(** * NutsTrackerCard: quota accounting and refresh cycle of [Frame.tsx]

    A shallow embedding of the logic of [src/components/Frame.tsx]:
    the reset-boundary computation of [calculateDailyAllowance], the
    aggregation loop and the state update of [fetchNutsData], and the
    three-way render decision of [NutsTrackerCard].

    JavaScript numbers that the component manipulates are counts, user
    ids and millisecond time values; all of them are integers of
    magnitude below 2^53, where double arithmetic is exact, so they are
    modelled as [Z].  A time value that may be NaN (an invalid Date) is
    an [option Z]. *)

From Stdlib Require Import ZArith List String Bool Lia Permutation.
Import ListNotations.
Local Open Scope string_scope.
Local Open Scope Z_scope.
Set Warnings "-register-all".

(** ** The Date machinery used by the component (ECMA-262, section 21.4.1) *)

Module JSDate.

Definition msPerDay : Z := 86400000.
Definition msPerHour : Z := 3600000.
Definition msPerMinute : Z := 60000.
Definition msPerSecond : Z := 1000.
Definition HoursPerDay : Z := 24.
Definition MinutesPerHour : Z := 60.
Definition SecondsPerMinute : Z := 60.

(** [Z.div] and [Z.modulo] round towards minus infinity for a positive
    divisor, as the specification's floor and modulo do. *)
Definition Day (t : Z) : Z := t / msPerDay.
Definition TimeWithinDay (t : Z) : Z := t mod msPerDay.

Definition DaysInYear (y : Z) : Z :=
  if negb (y mod 4 =? 0) then 365
  else if negb (y mod 100 =? 0) then 366
  else if negb (y mod 400 =? 0) then 365
  else 366.

Definition DayFromYear (y : Z) : Z :=
  365 * (y - 1970) + (y - 1969) / 4 - (y - 1901) / 100 + (y - 1601) / 400.

Definition TimeFromYear (y : Z) : Z := msPerDay * DayFromYear y.

(** The largest year whose first day is not after [t], computed on the
    400-year cycle that starts on 1601-01-01 (day number -134774). *)
Definition YearFromTime (t : Z) : Z :=
  let n := Day t + 134774 in
  let q400 := n / 146097 in
  let r400 := n mod 146097 in
  let c := Z.min (r400 / 36524) 3 in
  let r100 := r400 - c * 36524 in
  let q4 := r100 / 1461 in
  let r4 := r100 mod 1461 in
  let a := Z.min (r4 / 365) 3 in
  1601 + 400 * q400 + 100 * c + 4 * q4 + a.

Definition InLeapYear (t : Z) : Z :=
  if DaysInYear (YearFromTime t) =? 365 then 0 else 1.

Definition DayWithinYear (t : Z) : Z := Day t - DayFromYear (YearFromTime t).

Definition MonthFromTime (t : Z) : Z :=
  let d := DayWithinYear t in
  let leap := InLeapYear t in
  if d <? 31 then 0
  else if d <? 59 + leap then 1
  else if d <? 90 + leap then 2
  else if d <? 120 + leap then 3
  else if d <? 151 + leap then 4
  else if d <? 181 + leap then 5
  else if d <? 212 + leap then 6
  else if d <? 243 + leap then 7
  else if d <? 273 + leap then 8
  else if d <? 304 + leap then 9
  else if d <? 334 + leap then 10
  else 11.

Definition DateFromTime (t : Z) : Z :=
  let d := DayWithinYear t in
  let leap := InLeapYear t in
  match MonthFromTime t with
  | 0 => d + 1
  | 1 => d - 30
  | 2 => d - 58 - leap
  | 3 => d - 89 - leap
  | 4 => d - 119 - leap
  | 5 => d - 150 - leap
  | 6 => d - 180 - leap
  | 7 => d - 211 - leap
  | 8 => d - 242 - leap
  | 9 => d - 272 - leap
  | 10 => d - 303 - leap
  | _ => d - 333 - leap
  end.

Definition HourFromTime (t : Z) : Z := (t / msPerHour) mod HoursPerDay.
Definition MinFromTime (t : Z) : Z := (t / msPerMinute) mod MinutesPerHour.
Definition SecFromTime (t : Z) : Z := (t / msPerSecond) mod SecondsPerMinute.
Definition msFromTime (t : Z) : Z := t mod msPerSecond.

Definition MakeTime (hour min sec ms : Z) : Z :=
  hour * msPerHour + min * msPerMinute + sec * msPerSecond + ms.

(** Day number of the first day of month [mn] (0..11) in a year that
    has [leap] extra days. *)
Definition monthStart (mn leap : Z) : Z :=
  match mn with
  | 0 => 0
  | 1 => 31
  | 2 => 59 + leap
  | 3 => 90 + leap
  | 4 => 120 + leap
  | 5 => 151 + leap
  | 6 => 181 + leap
  | 7 => 212 + leap
  | 8 => 243 + leap
  | 9 => 273 + leap
  | 10 => 304 + leap
  | _ => 334 + leap
  end.

(** [MakeDay]: the day number of the first of the month, plus
    [date - 1]; [date] may be 0 or negative and then reaches into the
    previous month. *)
Definition MakeDay (year month date : Z) : Z :=
  let ym := year + month / 12 in
  let mn := month mod 12 in
  let leap := if DaysInYear ym =? 365 then 0 else 1 in
  DayFromYear ym + monthStart mn leap + date - 1.

Definition MakeDate (day time : Z) : Z := day * msPerDay + time.

Definition maxTime : Z := 8640000000000000.

(** A Date's time value: [None] is NaN (an invalid Date). *)
Definition Date : Type := option Z.

Definition TimeClip (t : Z) : Date :=
  if Z.abs t >? maxTime then None else Some t.

(** [new Date(value)] *)
Definition newDate (tv : Z) : Date := TimeClip tv.

(** [new Date(otherDate)] copies the time value. *)
Definition copyDate (d : Date) : Date :=
  match d with Some t => TimeClip t | None => None end.

Definition getTime (d : Date) : option Z := d.
Definition getUTCHours (d : Date) : option Z := option_map HourFromTime d.
Definition getUTCDate (d : Date) : option Z := option_map DateFromTime d.

(** [d.setUTCDate(dt)]: the Date after the call. *)
Definition setUTCDate (d : Date) (dt : option Z) : Date :=
  match d, dt with
  | Some t, Some dt =>
      TimeClip (MakeDate (MakeDay (YearFromTime t) (MonthFromTime t) dt)
                         (TimeWithinDay t))
  | _, _ => None
  end.

(** [d.setUTCHours(hour, min, sec, ms)]: the Date after the call. *)
Definition setUTCHours (d : Date) (hour min sec ms : Z) : Date :=
  match d with
  | Some t => TimeClip (MakeDate (Day t) (MakeTime hour min sec ms))
  | None => None
  end.

(** Number operators on possibly-NaN operands: a comparison with NaN
    is false, arithmetic with NaN is NaN. *)
Definition num_lt (a b : option Z) : bool :=
  match a, b with
  | Some x, Some y => x <? y
  | _, _ => false
  end.

Definition num_sub (a b : option Z) : option Z :=
  match a, b with
  | Some x, Some y => Some (x - y)
  | _, _ => None
  end.

Definition num_add (a b : option Z) : option Z :=
  match a, b with
  | Some x, Some y => Some (x + y)
  | _, _ => None
  end.

End JSDate.

Import JSDate.

(** ** JavaScript values, exceptions and the string scan *)

Module JS.

(** A string is its sequence of UTF-16 code units. *)
Definition jsstring : Type := list Z.

(** The values a response body can hold once parsed ([data] has type
    [any]), with [undefined] for what a property read may give.  An
    object is the list of its own properties, keys distinct. *)
Inductive value : Type :=
| VUndefined
| VNull
| VBool (b : bool)
| VNum (n : Z)
| VStr (s : jsstring)
| VArr (items : list value)
| VObj (props : list (string * value)).

Inductive exn : Type :=
| TypeError      (* property read of null/undefined, call of a non-function *)
| SyntaxError    (* the body is not JSON *)
| NetworkError.  (* fetch rejected *)

(** Result of evaluating an expression that may throw. *)
Inductive completion (A : Type) : Type :=
| Normal (a : A)
| Throw (e : exn).
Arguments Normal {A} a.
Arguments Throw {A} e.

Definition bind {A B} (m : completion A) (k : A -> completion B)
  : completion B :=
  match m with
  | Normal a => k a
  | Throw e => Throw e
  end.

Fixpoint lookup (k : string) (props : list (string * value)) : value :=
  match props with
  | [] => VUndefined
  | (k', v) :: rest => if String.eqb k k' then v else lookup k rest
  end.

(** [v.k] for a property name [k] that no built-in prototype defines
    (the component reads [casts], [author], [parent_author], [fid] and
    [text]): reading from [undefined] or [null] throws, a primitive or
    an array has no such property. *)
Definition get (v : value) (k : string) : completion value :=
  match v with
  | VUndefined | VNull => Throw TypeError
  | VObj props => Normal (lookup k props)
  | VBool _ | VNum _ | VStr _ | VArr _ => Normal VUndefined
  end.

(** [v?.k] *)
Definition get_opt (v : value) (k : string) : completion value :=
  match v with
  | VUndefined | VNull => Normal VUndefined
  | _ => get v k
  end.

(** [v === n] for a number [n]. *)
Definition strict_eq_num (v : value) (n : Z) : bool :=
  match v with
  | VNum m => m =? n
  | _ => false
  end.

(** The peanut U+1F95C as it sits in a string: a surrogate pair. *)
Definition nut_hi : Z := 0xD83E.
Definition nut_lo : Z := 0xDD5C.
Definition nut : jsstring := [nut_hi; nut_lo].

(** All matches of the regular expression [/🥜/g] (no [u] flag, so the
    pattern is the two code units in sequence): scan from the left; at
    a match, record it and resume after it; otherwise move one code
    unit on. *)
Fixpoint matchAll_nut (s : jsstring) : list jsstring :=
  match s with
  | a :: ((b :: rest) as tl) =>
      if (a =? nut_hi) && (b =? nut_lo)
      then [a; b] :: matchAll_nut rest
      else matchAll_nut tl
  | _ => []
  end.

(** [s.match(/🥜/g)] on a string: [null] when nothing matches. *)
Definition String_match_nut (s : jsstring) : option (list jsstring) :=
  match matchAll_nut s with
  | [] => None
  | ms => Some ms
  end.

(** [v.match(/🥜/g)]: only a string has a callable [match]. *)
Definition match_nut (v : value) : completion (option (list jsstring)) :=
  match v with
  | VStr s => Normal (String_match_nut s)
  | _ => Throw TypeError
  end.

(** [(m || []).length] *)
Definition or_empty_length (m : option (list jsstring)) : Z :=
  match m with
  | Some ms => Z.of_nat (List.length ms)
  | None => 0
  end.

(** [arr.forEach(cb)] where the callback updates the enclosing
    function's locals, threaded here as [acc]; an exception in the
    callback ends the loop. *)
Fixpoint forEach {S : Type} (items : list value)
         (cb : value -> S -> completion S) (acc : S) : completion S :=
  match items with
  | [] => Normal acc
  | x :: rest => bind (cb x acc) (forEach rest cb)
  end.

(** [v.forEach(cb)]: only an array has a callable [forEach]. *)
Definition call_forEach {S : Type} (v : value)
           (cb : value -> S -> completion S) (acc : S) : completion S :=
  match v with
  | VArr items => forEach items cb acc
  | _ => Throw TypeError
  end.

End JS.

Import JS.

Notation "x <- m ;; k" := (bind m (fun x => k))
  (at level 61, m at next level, right associativity).

(** ** The component *)

(** Outcome of [await fetch(...)] followed by [await response.json()]. *)
Inductive network : Type :=
| Rejected                          (* fetch itself rejects *)
| Response (body : completion value). (* a response came; its body parsed or not *)

Definition await_json (net : network) : completion value :=
  match net with
  | Rejected => Throw NetworkError
  | Response body => body
  end.

(** The [nutsData] state object. *)
Record NutsData : Type := mkNutsData {
  sent : Z;
  received : Z;
  failedAttempts : Z;
  lastUpdated : Z
}.

(** The three [useState] cells of [NutsTrackerCard]. *)
Record component : Type := mkComponent {
  nutsData : NutsData;
  isLoading : bool;
  error : string
}.

Definition setNutsData (f : NutsData -> NutsData) (st : component) : component :=
  {| nutsData := f (nutsData st); isLoading := isLoading st; error := error st |}.

Definition setIsLoading (b : bool) (st : component) : component :=
  {| nutsData := nutsData st; isLoading := b; error := error st |}.

Definition setError (e : string) (st : component) : component :=
  {| nutsData := nutsData st; isLoading := isLoading st; error := e |}.

(** What [calculateDailyAllowance] returns. *)
Record allowance : Type := mkAllowance {
  remaining : Z;
  nextReset : option Z
}.

(** What the component renders. *)
Inductive view : Type :=
| ErrorView (msg : string)
| LoadingView
| CardView (totalReceived dailyRemaining sentToday : Z).

Section NutsTrackerCard.

(** Constants the file uses but does not declare. *)
Variable DAILY_ALLOWANCE : Z.
Variable RESET_HOUR_UTC : Z.

(** The [fid] prop. *)
Variable fid : Z.

(** Initial state, created at wall-clock time [clock]. *)
Definition initialState (clock : Z) : component :=
  {| nutsData := {| sent := 0; received := 0; failedAttempts := 0;
                    lastUpdated := clock |};
     isLoading := true;
     error := EmptyString |}.

(** [lastReset] as [calculateDailyAllowance] leaves it, with [clock]
    the time value of [new Date()]. *)
Definition lastReset (clock : Z) : Date :=
  let now := newDate clock in
  let lastReset := copyDate now in
  let lastReset :=
    if num_lt (getUTCHours now) (Some RESET_HOUR_UTC)
    then setUTCDate lastReset (num_sub (getUTCDate now) (Some 1))
    else lastReset in
  setUTCHours lastReset RESET_HOUR_UTC 0 0 0.

Definition calculateDailyAllowance (st : component) (clock : Z) : allowance :=
  {| remaining := DAILY_ALLOWANCE - sent (nutsData st);
     nextReset := num_add (getTime (lastReset clock)) (Some 86400000) |}.

(** Body of the [forEach] callback; [acc] is
    [(sentNuts, receivedNuts)]. *)
Definition countCast (cast : value) (acc : Z * Z) : completion (Z * Z) :=
  let '(sentNuts, receivedNuts) := acc in
  author <- get cast "author" ;;
  authorFid <- get author "fid" ;;
  sentNuts <-
    (if strict_eq_num authorFid fid
     then m <- (text <- get cast "text" ;; match_nut text) ;;
          Normal (sentNuts + or_empty_length m)
     else Normal sentNuts) ;;
  parent_author <- get cast "parent_author" ;;
  parentFid <- get_opt parent_author "fid" ;;
  receivedNuts <-
    (if strict_eq_num parentFid fid
     then m <- (text <- get cast "text" ;; match_nut text) ;;
          Normal (receivedNuts + or_empty_length m)
     else Normal receivedNuts) ;;
  Normal (sentNuts, receivedNuts).

(** The [try] block up to the state update: the pair
    [(sentNuts, receivedNuts)] after the loop, or the exception. *)
Definition countNuts (net : network) : completion (Z * Z) :=
  data <- await_json net ;;
  let sentNuts := 0 in
  let receivedNuts := 0 in
  casts <- get data "casts" ;;
  call_forEach casts countCast (sentNuts, receivedNuts).

(** One run of [fetchNutsData] against component state [st]; [clock]
    is what [Date.now()] returns inside the state updater. *)
Definition fetchNutsData (net : network) (clock : Z) (st : component)
  : component :=
  let st :=
    match countNuts net with
    | Normal (sentNuts, receivedNuts) =>
        let st :=
          setNutsData (fun prev =>
            {| sent := sentNuts;
               received := receivedNuts;
               failedAttempts :=
                 failedAttempts prev
                 + (if sentNuts >? DAILY_ALLOWANCE then 1 else 0);
               lastUpdated := clock |}) st in
        setError EmptyString st
    | Throw err =>
        setError "Failed to fetch nuts data" st
    end in
  setIsLoading false st.

(** A sequence of completed refresh cycles. *)
Definition refresh (st : component) (cycles : list (network * Z)) : component :=
  fold_left (fun st c => fetchNutsData (fst c) (snd c) st) cycles st.

(** The Daily Remaining cell: [remaining > 0 ? remaining : 0]. *)
Definition shownRemaining (remaining : Z) : Z :=
  if remaining >? 0 then remaining else 0.

(** The render decision and the numbers the card shows. *)
Definition render (st : component) (clock : Z) : view :=
  let remaining := remaining (calculateDailyAllowance st clock) in
  if negb (String.eqb (error st) EmptyString) then ErrorView (error st)
  else if isLoading st then LoadingView
  else CardView (received (nutsData st))
                (shownRemaining remaining)
                (sent (nutsData st)).

End NutsTrackerCard.

(** Adding [(ds, dr)] to a pair of counters. *)
Definition shift (ds dr : Z) (acc : Z * Z) : completion (Z * Z) :=
  Normal (ds + fst acc, dr + snd acc).

(** [now] and the instant one day before it are valid time values. *)
Definition clockInRange (now : Z) : Prop :=
  - maxTime + msPerDay <= now <= maxTime.

(** ** The design's reading of the aggregation *)

(** A feed event as the design describes it. *)
Record FeedEvent : Type := mkFeedEvent {
  authorId : Z;
  parentAuthorId : option Z;
  text : jsstring
}.

Fixpoint is_prefix (p s : jsstring) : bool :=
  match p, s with
  | [], _ => true
  | x :: p', y :: s' => (x =? y) && is_prefix p' s'
  | _ :: _, [] => false
  end.

(** Number of positions of [s] at which [marker] occurs literally. *)
Fixpoint occurrences (marker s : jsstring) : Z :=
  match s with
  | [] => 0
  | _ :: tl => (if is_prefix marker s then 1 else 0) + occurrences marker tl
  end.

Definition sum (l : list Z) : Z := fold_right Z.add 0 l.

Definition sent_of (subjectId : Z) (events : list FeedEvent) : Z :=
  sum (map (fun e => occurrences nut (text e))
           (filter (fun e => authorId e =? subjectId) events)).

Definition received_of (subjectId : Z) (events : list FeedEvent) : Z :=
  sum (map (fun e => occurrences nut (text e))
           (filter (fun e => match parentAuthorId e with
                             | Some p => p =? subjectId
                             | None => false
                             end) events)).

(** A parsed cast [v] carries the feed event [e]. *)
Definition carries (v : value) (e : FeedEvent) : Prop :=
  (author <- get v "author" ;; get author "fid") = Normal (VNum (authorId e))
  /\ (exists pf,
        (pa <- get v "parent_author" ;; get_opt pa "fid") = Normal pf
        /\ match parentAuthorId e with
           | Some p => pf = VNum p
           | None => forall n, pf <> VNum n
           end)
  /\ get v "text" = Normal (VStr (text e)).

(** The cast object the feed returns for an event. *)
Definition castOf (e : FeedEvent) : value :=
  VObj [ ("author", VObj [("fid", VNum (authorId e))]);
         ("parent_author",
          VObj [("fid", match parentAuthorId e with
                        | Some p => VNum p
                        | None => VNull
                        end)]);
         ("text", VStr (text e)) ].

(** A response whose body parses to an object with the array [items]
    under [casts]. *)
Definition feedBody (items : list value) : network :=
  Response (Normal (VObj [("casts", VArr items)])).

Definition feedOf (events : list FeedEvent) : network :=
  feedBody (map castOf events).

(** A text of [n] peanuts. *)
Fixpoint nuts (n : nat) : jsstring :=
  match n with
  | O => []
  | S n' => nut_hi :: nut_lo :: nuts n'
  end.

(** ** Further parts of the component *)

(** The hours shown under the card:
    [Math.floor((nextReset - Date.now()) / 3600000)], [clock] being what
    [Date.now()] returns in the JSX.  The operands are integers below
    2^53; the quotient of such an integer of magnitude at most a day by
    3600000 is either an integer or at least 1/3600000 away from one,
    far more than the rounding of the division, so the floor of the
    double quotient is the integer floor. *)
Definition hoursToReset (nextReset : option Z) (clock : Z) : option Z :=
  option_map (fun diff => diff / 3600000) (num_sub nextReset (Some clock)).

(** 1 when [s1] ends with the first half of the peanut and [s2] starts
    with the second, else 0. *)
Definition seam (s1 s2 : jsstring) : Z :=
  match s1, s2 with
  | _ :: _, b :: _ =>
      if (last s1 0 =? nut_hi) && (b =? nut_lo) then 1 else 0
  | _, _ => 0
  end.

(** Whether a cycle's [try] block throws. *)
Definition cycleFails (fid : Z) (net : network) : bool :=
  match countNuts fid net with
  | Normal _ => false
  | Throw _ => true
  end.

(** Whether a cycle completes with more sent than the allowance. *)
Definition cycleOver (DAILY_ALLOWANCE fid : Z) (net : network) : bool :=
  match countNuts fid net with
  | Normal (sentNuts, _) => sentNuts >? DAILY_ALLOWANCE
  | Throw _ => false
  end.

(** ** The [Frame] component *)

(** Truthiness of a value, as [!v] and [v && w] test it. *)
Definition truthy (v : value) : bool :=
  match v with
  | VUndefined | VNull => false
  | VBool b => b
  | VNum n => negb (n =? 0)
  | VStr s => match s with [] => false | _ :: _ => true end
  | VArr _ | VObj _ => true
  end.

(** [v] is [null] or [undefined]: what [?.] and [??] test. *)
Definition nullish (v : value) : bool :=
  match v with
  | VUndefined | VNull => true
  | _ => false
  end.

(** The four [useState] cells of [Frame]. *)
Record frame : Type := mkFrame {
  isSDKLoaded : bool;
  context : value;
  added : value;
  addFrameResult : string
}.

Definition initialFrame : frame :=
  {| isSDKLoaded := false; context := VUndefined; added := VBool false;
     addFrameResult := EmptyString |}.

Definition setIsSDKLoaded (b : bool) (st : frame) : frame :=
  {| isSDKLoaded := b; context := context st; added := added st;
     addFrameResult := addFrameResult st |}.

Definition setContext (c : value) (st : frame) : frame :=
  {| isSDKLoaded := isSDKLoaded st; context := c; added := added st;
     addFrameResult := addFrameResult st |}.

Definition setAdded (a : value) (st : frame) : frame :=
  {| isSDKLoaded := isSDKLoaded st; context := context st; added := a;
     addFrameResult := addFrameResult st |}.

Definition setAddFrameResult (r : string) (st : frame) : frame :=
  {| isSDKLoaded := isSDKLoaded st; context := context st; added := added st;
     addFrameResult := r |}.

(** What [sdk.actions.addFrame()] can reject with: an instance of one
    of the two classes the handler tests for, or anything else.
    [message] is the error's [message]; [shown] is the string that the
    template [`${error}`] gives for it. *)
Inductive addFrameError : Type :=
| RejectedByUser (message shown : string)
| InvalidDomainManifest (message shown : string)
| OtherError (shown : string).

Definition shownAs (e : addFrameError) : string :=
  match e with
  | RejectedByUser _ s | InvalidDomainManifest _ s | OtherError s => s
  end.

(** [addFrame]; [outcome] is [None] when the awaited call resolves. *)
Definition addFrame (outcome : option addFrameError) (st : frame) : frame :=
  match outcome with
  | None => st
  | Some error =>
      let st :=
        match error with
        | RejectedByUser message _ =>
            setAddFrameResult ("Not added: " ++ message) st
        | _ => st
        end in
      let st :=
        match error with
        | InvalidDomainManifest message _ =>
            setAddFrameResult ("Not added: " ++ message) st
        | _ => st
        end in
      setAddFrameResult ("Error: " ++ shownAs error) st
  end.

(** The calls [load] makes on the SDK and on the provider store, in
    order (console output is left out). *)
Inductive sdkCall : Type :=
| PromptAddFrame            (* addFrame() *)
| Listen (event : string)   (* sdk.on(event, ...) *)
| Ready                     (* sdk.actions.ready({}) *)
| CreateStore               (* createStore() *)
| Subscribe.                (* store.subscribe(...) *)

(** [load], with [awaited] the result of [await sdk.context]: the new
    state, the calls made, and how the function ends.  The calls
    themselves are taken to return. *)
Definition load (awaited : completion value) (st : frame)
  : frame * list sdkCall * completion unit :=
  match awaited with
  | Throw e => (st, [], Throw e)
  | Normal context =>
      if negb (truthy context) then (st, [], Normal tt)
      else
        let st := setContext context st in
        match (client <- get context "client" ;; get client "added") with
        | Throw e => (st, [], Throw e)
        | Normal clientAdded =>
            let st := setAdded clientAdded st in
            let prompt :=
              if negb (truthy clientAdded) then [PromptAddFrame] else [] in
            (st,
             (prompt
              ++ [ Listen "frameAdded"; Listen "frameAddRejected";
                   Listen "frameRemoved"; Listen "notificationsEnabled";
                   Listen "notificationsDisabled";
                   Listen "primaryButtonClicked";
                   Ready; CreateStore; Subscribe ])%list,
             Normal tt)
        end
  end.

(** [context?.client.safeAreaInsets?.side ?? 0] *)
Definition inset (context : value) (side : string) : completion value :=
  v <- (if nullish context then Normal VUndefined
        else client <- get context "client" ;;
             insets <- get client "safeAreaInsets" ;;
             get_opt insets side) ;;
  Normal (if nullish v then VNum 0 else v).

(** What [Frame] puts under the share button: the value of the guard
    when it is falsy, the tracker card with its props otherwise. *)
Inductive frameChild : Type :=
| NoCard (guard : value)
| TrackerCard (fid profile : value).

Inductive frameView : Type :=
| FrameLoading
| FrameMain (paddingTop paddingBottom paddingLeft paddingRight : value)
            (child : frameChild).

Definition renderFrame (st : frame) : completion frameView :=
  if negb (isSDKLoaded st) then Normal FrameLoading
  else
    let context := context st in
    paddingTop <- inset context "top" ;;
    paddingBottom <- inset context "bottom" ;;
    paddingLeft <- inset context "left" ;;
    paddingRight <- inset context "right" ;;
    guard <- (if nullish context then Normal VUndefined
              else frameData <- get context "frameData" ;;
                   get_opt frameData "fid") ;;
    child <- (if truthy guard
              then frameData <- get context "frameData" ;;
                   fid <- get frameData "fid" ;;
                   user <- get frameData "user" ;;
                   Normal (TrackerCard fid user)
              else Normal (NoCard guard)) ;;
    Normal (FrameMain paddingTop paddingBottom paddingLeft paddingRight child).

(** One run of the effect of [Frame] against state [st] ([sdk] is the
    imported module object, hence truthy): the state after it and
    whether [load] was started. *)
Definition sdkEffect (st : frame) : frame * bool :=
  if negb (isSDKLoaded st)
  then (setIsSDKLoaded true st, true)
  else (st, false).

(** * Properties *)

(** The calendar functions on known dates. *)
Example date_2025_02_10 :
  let t := 1739163600000 in (* 2025-02-10T05:00:00Z *)
  (YearFromTime t, MonthFromTime t, DateFromTime t, HourFromTime t)
  = (2025, 1, 10, 5).
Proof. vm_compute. reflexivity. Qed.

Example date_2024_02_29 :
  let t := 1709251199999 in (* 2024-02-29T23:59:59.999Z *)
  (YearFromTime t, MonthFromTime t, DateFromTime t, HourFromTime t,
   MinFromTime t, SecFromTime t, msFromTime t)
  = (2024, 1, 29, 23, 59, 59, 999).
Proof. vm_compute. reflexivity. Qed.

Example date_1969_12_31 :
  let t := -1 in (* 1969-12-31T23:59:59.999Z *)
  (YearFromTime t, MonthFromTime t, DateFromTime t, HourFromTime t)
  = (1969, 11, 31, 23).
Proof. vm_compute. reflexivity. Qed.

Example date_2000_03_01 :
  let t := 951868800000 in (* 2000-03-01T00:00:00Z *)
  (YearFromTime t, MonthFromTime t, DateFromTime t) = (2000, 2, 1)
  /\ MakeDay 2000 2 0 = Day t - 1
  /\ (YearFromTime (t - 1), MonthFromTime (t - 1), DateFromTime (t - 1))
     = (2000, 1, 29).
Proof. vm_compute. repeat split; reflexivity. Qed.


(** ** The calendar model agrees with the language specification *)

Lemma div_eq (a b q : Z) : 0 < b -> b * q <= a < b * q + b -> a / b = q.
Proof.
  intros Hb H. symmetry. apply (Z.div_unique a b q (a - b * q)); lia.
Qed.

Lemma DayFromYear_succ (y : Z) :
  DayFromYear (y + 1) = DayFromYear y + DaysInYear y.
Proof.
  unfold DayFromYear, DaysInYear.
  destruct (Z.eqb_spec (y mod 4) 0), (Z.eqb_spec (y mod 100) 0),
    (Z.eqb_spec (y mod 400) 0); cbn [negb];
    Z.div_mod_to_equations; lia.
Qed.

Lemma DaysInYear_range (y : Z) : DaysInYear y = 365 \/ DaysInYear y = 366.
Proof.
  unfold DaysInYear.
  destruct (negb (y mod 4 =? 0)), (negb (y mod 100 =? 0)),
    (negb (y mod 400 =? 0)); auto.
Qed.

Lemma DayFromYear_lt (y y' : Z) : y < y' -> DayFromYear y < DayFromYear y'.
Proof.
  intros H.
  replace y' with (y + 1 + Z.of_nat (Z.to_nat (y' - y - 1))) by lia.
  induction (Z.to_nat (y' - y - 1)) as [|n IH].
  - rewrite Z.add_0_r, DayFromYear_succ. pose proof (DaysInYear_range y). lia.
  - replace (y + 1 + Z.of_nat (S n)) with (y + 1 + Z.of_nat n + 1) by lia.
    rewrite DayFromYear_succ.
    pose proof (DaysInYear_range (y + 1 + Z.of_nat n)). lia.
Qed.

(** The year found by the cycle arithmetic starts on or before the day
    of [t], and the next year starts after it. *)
Lemma YearFromTime_bounds (t : Z) :
  DayFromYear (YearFromTime t) <= Day t < DayFromYear (YearFromTime t + 1).
Proof.
  unfold YearFromTime, DayFromYear.
  generalize (Day t); intros d.
  cbv zeta.
  pose proof (Z.mod_pos_bound (d + 134774) 146097 ltac:(lia)) as Hr.
  pose proof (Z.div_mod (d + 134774) 146097 ltac:(lia)) as Hd.
  set (q := (d + 134774) / 146097) in *.
  set (r := (d + 134774) mod 146097) in *.
  clearbody q r.
  set (c := Z.min (r / 36524) 3).
  assert (Hc : 0 <= c <= 3 /\ 36524 * c <= r
               /\ (c < 3 -> r < 36524 * c + 36524)).
  { subst c. pose proof (Z.div_mod r 36524 ltac:(lia)).
    pose proof (Z.mod_pos_bound r 36524 ltac:(lia)). lia. }
  clearbody c.
  set (r100 := r - c * 36524).
  assert (Hr100 : r100 = r - c * 36524) by reflexivity. clearbody r100.
  pose proof (Z.mod_pos_bound r100 1461 ltac:(lia)) as Hr4.
  pose proof (Z.div_mod r100 1461 ltac:(lia)) as Hd4.
  set (q4 := r100 / 1461) in *.
  set (r4 := r100 mod 1461) in *.
  clearbody q4 r4.
  set (a := Z.min (r4 / 365) 3).
  assert (Ha : 0 <= a <= 3 /\ 365 * a <= r4
               /\ (a < 3 -> r4 < 365 * a + 365)).
  { subst a. pose proof (Z.div_mod r4 365 ltac:(lia)).
    pose proof (Z.mod_pos_bound r4 365 ltac:(lia)). lia. }
  clearbody a.
  assert (Hq4 : 0 <= q4 <= 24) by lia.
  set (y := 1601 + 400 * q + 100 * c + 4 * q4 + a).
  rewrite (div_eq (y - 1969) 4 (100 * q + 25 * c + q4 - 92)) by lia.
  rewrite (div_eq (y - 1901) 100 (4 * q + c - 3)) by lia.
  rewrite (div_eq (y - 1601) 400 q) by lia.
  split; [lia|].
  assert (Hcase : a < 3 \/ a = 3 /\ q4 < 24 \/ a = 3 /\ q4 = 24 /\ c < 3
                  \/ a = 3 /\ q4 = 24 /\ c = 3) by lia.
  destruct Hcase as [H|[H|[H|H]]].
  - rewrite (div_eq (y + 1 - 1969) 4 (100 * q + 25 * c + q4 - 92)) by lia.
    rewrite (div_eq (y + 1 - 1901) 100 (4 * q + c - 3)) by lia.
    rewrite (div_eq (y + 1 - 1601) 400 q) by lia.
    lia.
  - rewrite (div_eq (y + 1 - 1969) 4 (100 * q + 25 * c + q4 - 91)) by lia.
    rewrite (div_eq (y + 1 - 1901) 100 (4 * q + c - 3)) by lia.
    rewrite (div_eq (y + 1 - 1601) 400 q) by lia.
    lia.
  - rewrite (div_eq (y + 1 - 1969) 4 (100 * q + 25 * c + q4 - 91)) by lia.
    rewrite (div_eq (y + 1 - 1901) 100 (4 * q + c - 2)) by lia.
    rewrite (div_eq (y + 1 - 1601) 400 q) by lia.
    lia.
  - rewrite (div_eq (y + 1 - 1969) 4 (100 * q + 25 * c + q4 - 91)) by lia.
    rewrite (div_eq (y + 1 - 1901) 100 (4 * q + c - 2)) by lia.
    rewrite (div_eq (y + 1 - 1601) 400 (q + 1)) by lia.
    lia.
Qed.

Lemma msPerDay_Day (t : Z) : msPerDay * Day t <= t < msPerDay * Day t + msPerDay.
Proof.
  unfold Day, msPerDay.
  pose proof (Z.div_mod t 86400000 ltac:(lia)).
  pose proof (Z.mod_pos_bound t 86400000 ltac:(lia)). lia.
Qed.

(** [YearFromTime t] is the largest year [y] with [TimeFromYear y <= t]. *)
Lemma YearFromTime_largest (t : Z) :
  TimeFromYear (YearFromTime t) <= t
  /\ forall y, TimeFromYear y <= t -> y <= YearFromTime t.
Proof.
  pose proof (YearFromTime_bounds t) as [Hlo Hhi].
  pose proof (msPerDay_Day t) as Hd.
  unfold TimeFromYear. split.
  - unfold msPerDay in *. lia.
  - intros y Hy.
    destruct (Z_le_gt_dec y (YearFromTime t)) as [|Hgt]; [assumption|exfalso].
    assert (Hle : DayFromYear (YearFromTime t + 1) <= DayFromYear y).
    { destruct (Z.eq_dec y (YearFromTime t + 1)) as [->|Hne]; [lia|].
      apply Z.lt_le_incl, DayFromYear_lt. lia. }
    unfold msPerDay in *. lia.
Qed.

Lemma DayWithinYear_range (t : Z) :
  0 <= DayWithinYear t < DaysInYear (YearFromTime t).
Proof.
  unfold DayWithinYear.
  pose proof (YearFromTime_bounds t) as H.
  rewrite DayFromYear_succ in H. lia.
Qed.

Lemma InLeapYear_DaysInYear (t : Z) :
  DaysInYear (YearFromTime t) = 365 + InLeapYear t.
Proof.
  unfold InLeapYear.
  destruct (DaysInYear_range (YearFromTime t)) as [E|E]; rewrite E;
    reflexivity.
Qed.

Lemma MonthFromTime_range (t : Z) : 0 <= MonthFromTime t <= 11.
Proof.
  unfold MonthFromTime. cbv zeta.
  repeat match goal with
         | |- context [if ?b then _ else _] => destruct b
         end; lia.
Qed.

Lemma DateFromTime_monthStart (t : Z) :
  DateFromTime t
  = DayWithinYear t - monthStart (MonthFromTime t) (InLeapYear t) + 1.
Proof.
  unfold DateFromTime, monthStart. cbv zeta.
  pose proof (MonthFromTime_range t) as Hm.
  destruct (MonthFromTime t) as [|p|p]; try lia.
  do 4 (try destruct p as [p|p|]); lia.
Qed.

Lemma DateFromTime_range (t : Z) : 1 <= DateFromTime t <= 31.
Proof.
  pose proof (DayWithinYear_range t) as Hd.
  rewrite InLeapYear_DaysInYear in Hd.
  assert (Hl : InLeapYear t = 0 \/ InLeapYear t = 1)
    by (unfold InLeapYear; destruct (_ =? _); auto).
  unfold DateFromTime, MonthFromTime. cbv zeta.
  repeat match goal with
         | |- context [?a <? ?b] => destruct (Z.ltb_spec a b)
         end; cbn [Z.eqb]; lia.
Qed.

Lemma Day_of_day (d : Z) : Day (d * msPerDay) = d.
Proof. unfold Day, msPerDay. apply Z.div_mul. lia. Qed.

Lemma YearFromTime_unique (t y : Z) :
  DayFromYear y <= Day t < DayFromYear (y + 1) -> YearFromTime t = y.
Proof.
  intros [Hlo Hhi].
  pose proof (YearFromTime_bounds t) as [Hlo' Hhi'].
  destruct (Z.lt_trichotomy (YearFromTime t) y) as [Hlt|[Heq|Hgt]];
    [exfalso|exact Heq|exfalso].
  - assert (DayFromYear (YearFromTime t + 1) <= DayFromYear y).
    { destruct (Z.eq_dec y (YearFromTime t + 1)) as [->|Hne]; [lia|].
      apply Z.lt_le_incl, DayFromYear_lt. lia. }
    lia.
  - assert (DayFromYear (y + 1) <= DayFromYear (YearFromTime t)).
    { destruct (Z.eq_dec (YearFromTime t) (y + 1)) as [->|Hne]; [lia|].
      apply Z.lt_le_incl, DayFromYear_lt. lia. }
    lia.
Qed.

(** [MakeDay year month 1] is the day number of a time value in that
    year and month whose day of the month is 1, as the language
    specification asks of it. *)
Lemma MakeDay_first_of_month (year month : Z) :
  0 <= month <= 11 ->
  let t := MakeDay year month 1 * msPerDay in
  YearFromTime t = year /\ MonthFromTime t = month /\ DateFromTime t = 1.
Proof.
  intros Hm. cbv zeta.
  unfold MakeDay. cbv zeta.
  rewrite Z.div_small, Z.mod_small, Z.add_0_r by lia.
  set (leap := if DaysInYear year =? 365 then 0 else 1).
  assert (Hleap : DaysInYear year = 365 + leap /\ (leap = 0 \/ leap = 1)).
  { subst leap. destruct (DaysInYear_range year) as [E|E]; rewrite E;
      cbn; lia. }
  assert (Hstart : 0 <= monthStart month leap < DaysInYear year).
  { unfold monthStart.
    destruct month as [|p|p]; try lia.
    do 4 (try destruct p as [p|p|]); lia. }
  set (d := DayFromYear year + monthStart month leap + 1 - 1) in *.
  assert (Hy : YearFromTime (d * msPerDay) = year).
  { apply YearFromTime_unique. rewrite Day_of_day, DayFromYear_succ.
    subst d. lia. }
  assert (Hl : InLeapYear (d * msPerDay) = leap).
  { unfold InLeapYear. rewrite Hy. reflexivity. }
  assert (Hw : DayWithinYear (d * msPerDay) = monthStart month leap).
  { unfold DayWithinYear. rewrite Hy, Day_of_day. subst d. lia. }
  assert (Hmonth : MonthFromTime (d * msPerDay) = month).
  { unfold MonthFromTime. cbv zeta. rewrite Hw, Hl.
    assert (Hcases : month = 0 \/ month = 1 \/ month = 2 \/ month = 3
                     \/ month = 4 \/ month = 5 \/ month = 6 \/ month = 7
                     \/ month = 8 \/ month = 9 \/ month = 10 \/ month = 11)
      by lia.
    repeat (destruct Hcases as [->|Hcases]); try subst month;
      cbn [monthStart];
      repeat match goal with
             | |- context [?a <? ?b] => destruct (Z.ltb_spec a b); try lia
             end. }
  split; [exact Hy|]. split; [exact Hmonth|].
  rewrite DateFromTime_monthStart, Hw, Hmonth, Hl. lia.
Qed.

(** Setting the day of the month to one less than it is moves the Date
    back by exactly one day, whatever the month and year. *)
Lemma MakeDay_previous (t : Z) :
  MakeDay (YearFromTime t) (MonthFromTime t) (DateFromTime t - 1) = Day t - 1.
Proof.
  unfold MakeDay. cbv zeta.
  pose proof (MonthFromTime_range t) as Hm.
  rewrite Z.div_small, Z.mod_small, Z.add_0_r by lia.
  rewrite DateFromTime_monthStart.
  fold (InLeapYear t). unfold DayWithinYear. lia.
Qed.

(** ** The quota calculator *)

(** A state in which 35 peanuts were sent: the first refresh of user 7
    against a feed holding one cast of theirs with 35 peanuts. *)
Lemma sent_35_reachable :
  nutsData (fetchNutsData 30 7
              (feedOf [ {| authorId := 7; parentAuthorId := None;
                           text := nuts 35 |} ])
              1739163600000 (initialState 1739163599000))
  = {| sent := 35; received := 0; failedAttempts := 1;
       lastUpdated := 1739163600000 |}.
Proof. vm_compute. reflexivity. Qed.

(** C1, as stated, fails: with an allowance of 30 and 35 sent,
    [calculateDailyAllowance] returns [remaining = -5], which is
    negative and is not [max 0 (30 - 35)]. *)
Lemma calculateDailyAllowance_remaining_unclamped :
  let st := fetchNutsData 30 7
              (feedOf [ {| authorId := 7; parentAuthorId := None;
                           text := nuts 35 |} ])
              1739163600000 (initialState 1739163599000) in
  0 <= sent (nutsData st)
  /\ remaining (calculateDailyAllowance 30 0 st 1739163600000) = -5
  /\ remaining (calculateDailyAllowance 30 0 st 1739163600000)
     <> Z.max 0 (30 - sent (nutsData st))
  /\ ~ 0 <= remaining (calculateDailyAllowance 30 0 st 1739163600000).
Proof. vm_compute. repeat split; congruence. Qed.

(** C1 (amended): [calculateDailyAllowance] returns the plain difference
    [DAILY_ALLOWANCE - sent]; the clamp is applied where the card shows
    the value, which is [max 0 (DAILY_ALLOWANCE - sent)] and never
    negative. *)
Theorem remaining_difference_shown_clamped
        (DAILY_ALLOWANCE RESET_HOUR_UTC : Z) (st : component) (clock : Z) :
  let a := calculateDailyAllowance DAILY_ALLOWANCE RESET_HOUR_UTC st clock in
  remaining a = DAILY_ALLOWANCE - sent (nutsData st)
  /\ shownRemaining (remaining a)
     = Z.max 0 (DAILY_ALLOWANCE - sent (nutsData st))
  /\ 0 <= shownRemaining (remaining a)
  /\ match render DAILY_ALLOWANCE RESET_HOUR_UTC st clock with
     | CardView _ dailyRemaining _ =>
         dailyRemaining = Z.max 0 (DAILY_ALLOWANCE - sent (nutsData st))
     | ErrorView _ | LoadingView => True
     end.
Proof.
  cbv zeta. cbn [calculateDailyAllowance remaining].
  assert (E : shownRemaining (DAILY_ALLOWANCE - sent (nutsData st))
              = Z.max 0 (DAILY_ALLOWANCE - sent (nutsData st))).
  { unfold shownRemaining.
    destruct (Z.gtb_spec (DAILY_ALLOWANCE - sent (nutsData st)) 0); lia. }
  repeat split.
  - exact E.
  - rewrite E. apply Z.le_max_l.
  - unfold render. cbn [calculateDailyAllowance remaining].
    destruct (negb _); [exact I|].
    destruct (isLoading st); [exact I|]. exact E.
Qed.

(** The spec's worked example: reset hour 0, allowance 30, now
    2025-02-10T05:00:00Z, 12 sent. *)
Example allowance_2025_02_10 :
  forall st, sent (nutsData st) = 12 ->
  calculateDailyAllowance 30 0 st 1739163600000
  = {| remaining := 18; nextReset := Some 1739232000000 |}
  /\ lastReset 0 1739163600000 = Some 1739145600000.
Proof.
  intros st H. unfold calculateDailyAllowance. rewrite H.
  split; vm_compute; reflexivity.
Qed.

Lemma TimeClip_in_range (t : Z) : - maxTime <= t <= maxTime -> TimeClip t = Some t.
Proof.
  intros H. unfold TimeClip.
  destruct (Z.gtb_spec (Z.abs t) maxTime); [lia|reflexivity].
Qed.

Lemma HourFromTime_range (t : Z) :
  0 <= HourFromTime t <= 23
  /\ Day t * msPerDay + HourFromTime t * msPerHour <= t
     < Day t * msPerDay + HourFromTime t * msPerHour + msPerHour.
Proof.
  unfold HourFromTime, Day, HoursPerDay, msPerDay, msPerHour.
  Z.div_mod_to_equations. lia.
Qed.

(** The boundary [lastReset] ends at, for a reset hour of 0..23. *)
Lemma lastReset_value (RESET_HOUR_UTC now : Z) :
  0 <= RESET_HOUR_UTC <= 23 ->
  clockInRange now ->
  lastReset RESET_HOUR_UTC now
  = Some (MakeDate (if HourFromTime now <? RESET_HOUR_UTC
                    then Day now - 1 else Day now)
                   (MakeTime RESET_HOUR_UTC 0 0 0)).
Proof.
  intros Hh Hnow. unfold clockInRange, maxTime, msPerDay in Hnow.
  pose proof (msPerDay_Day now) as Hday.
  unfold lastReset, newDate, copyDate.
  rewrite (TimeClip_in_range now) by (unfold maxTime; lia).
  rewrite (TimeClip_in_range now) by (unfold maxTime; lia).
  cbn [getUTCHours getUTCDate option_map num_lt num_sub].
  destruct (Z.ltb_spec (HourFromTime now) RESET_HOUR_UTC) as [Hlt|Hge].
  - cbn [setUTCDate]. rewrite MakeDay_previous.
    assert (Ht : MakeDate (Day now - 1) (TimeWithinDay now) = now - msPerDay).
    { unfold MakeDate, TimeWithinDay, Day.
      pose proof (Z.div_mod now msPerDay ltac:(unfold msPerDay; lia)). lia. }
    rewrite Ht, TimeClip_in_range by (unfold maxTime, msPerDay; lia).
    cbn [setUTCHours].
    assert (Hd : Day (now - msPerDay) = Day now - 1).
    { unfold Day. replace (now - msPerDay) with (now + (-1) * msPerDay) by lia.
      rewrite Z.div_add by (unfold msPerDay; lia). lia. }
    rewrite Hd. apply TimeClip_in_range.
    unfold MakeDate, MakeTime, maxTime, msPerDay, msPerHour, msPerMinute,
      msPerSecond in *. lia.
  - cbn [setUTCHours]. apply TimeClip_in_range.
    pose proof (HourFromTime_range now) as [_ Hhr].
    unfold MakeDate, MakeTime, maxTime, msPerDay, msPerHour, msPerMinute,
      msPerSecond in *. lia.
Qed.

Lemma MakeDate_fields (day hour : Z) :
  0 <= hour <= 23 ->
  let b := MakeDate day (MakeTime hour 0 0 0) in
  Day b = day /\ HourFromTime b = hour /\ MinFromTime b = 0
  /\ SecFromTime b = 0 /\ msFromTime b = 0.
Proof.
  intros Hh. cbv zeta.
  unfold MakeDate, MakeTime, Day, HourFromTime, MinFromTime, SecFromTime,
    msFromTime, msPerDay, msPerHour, msPerMinute, msPerSecond, HoursPerDay,
    MinutesPerHour, SecondsPerMinute.
  repeat split; Z.div_mod_to_equations; lia.
Qed.

(** C2: when the UTC hour of [now] is before the reset hour, the
    boundary is the reset hour, at 0 min 0 s 0 ms, of the previous UTC
    day, otherwise that of the current UTC day; [nextReset] is the
    boundary plus exactly 86,400,000 ms. *)
Theorem reset_boundary_and_nextReset
        (DAILY_ALLOWANCE RESET_HOUR_UTC : Z) (st : component) (now : Z) :
  0 <= RESET_HOUR_UTC <= 23 ->
  clockInRange now ->
  exists boundary,
    lastReset RESET_HOUR_UTC now = Some boundary
    /\ Day boundary
       = (if HourFromTime now <? RESET_HOUR_UTC then Day now - 1 else Day now)
    /\ HourFromTime boundary = RESET_HOUR_UTC
    /\ MinFromTime boundary = 0
    /\ SecFromTime boundary = 0
    /\ msFromTime boundary = 0
    /\ nextReset (calculateDailyAllowance DAILY_ALLOWANCE RESET_HOUR_UTC st now)
       = Some (boundary + 86400000).
Proof.
  intros Hh Hnow.
  pose proof (lastReset_value RESET_HOUR_UTC now Hh Hnow) as Hb.
  eexists. split; [exact Hb|].
  pose proof (MakeDate_fields
                (if HourFromTime now <? RESET_HOUR_UTC
                 then Day now - 1 else Day now) RESET_HOUR_UTC Hh)
    as (Hd & Hhr & Hm & Hs & Hms).
  repeat (split; [assumption|]).
  unfold calculateDailyAllowance. cbn [nextReset].
  rewrite Hb. reflexivity.
Qed.

Lemma reset_boundary_and_nextReset_witness :
  exists boundary,
    lastReset 0 1739163600000 = Some boundary
    /\ Day boundary
       = (if HourFromTime 1739163600000 <? 0
          then Day 1739163600000 - 1 else Day 1739163600000)
    /\ HourFromTime boundary = 0
    /\ MinFromTime boundary = 0
    /\ SecFromTime boundary = 0
    /\ msFromTime boundary = 0
    /\ nextReset (calculateDailyAllowance 30 0 (initialState 0) 1739163600000)
       = Some (boundary + 86400000).
Proof.
  apply (reset_boundary_and_nextReset 30 0 (initialState 0) 1739163600000).
  - lia.
  - unfold clockInRange, maxTime, msPerDay. lia.
Defined.

(** Across a month end in a leap year: reset hour 12, now
    2024-03-01T05:00:00Z; the boundary is 2024-02-29T12:00:00Z. *)
Example allowance_2024_03_01 :
  lastReset 12 1709269200000 = Some 1709208000000
  /\ nextReset (calculateDailyAllowance 30 12 (initialState 0) 1709269200000)
     = Some 1709294400000
  /\ (YearFromTime 1709208000000, MonthFromTime 1709208000000,
      DateFromTime 1709208000000, HourFromTime 1709208000000)
     = (2024, 1, 29, 12).
Proof. vm_compute. repeat split; reflexivity. Qed.

(** The boundary is the most recent instant at the reset hour that is
    not after [now]. *)
Lemma lastReset_most_recent (RESET_HOUR_UTC now : Z) :
  0 <= RESET_HOUR_UTC <= 23 ->
  clockInRange now ->
  exists boundary,
    lastReset RESET_HOUR_UTC now = Some boundary
    /\ boundary <= now < boundary + msPerDay.
Proof.
  intros Hh Hnow. eexists. split; [apply lastReset_value; assumption|].
  pose proof (HourFromTime_range now) as [Hr Hb].
  unfold MakeDate, MakeTime.
  destruct (Z.ltb_spec (HourFromTime now) RESET_HOUR_UTC);
    unfold msPerDay, msPerHour, msPerMinute, msPerSecond in *; lia.
Qed.

(** ** Counting peanuts in a text *)

Lemma occurrences_cons (marker : jsstring) (x : Z) (tl : jsstring) :
  occurrences marker (x :: tl)
  = (if is_prefix marker (x :: tl) then 1 else 0) + occurrences marker tl.
Proof. reflexivity. Qed.

Lemma matchAll_nut_step (a b : Z) (rest : jsstring) :
  matchAll_nut (a :: b :: rest)
  = if (a =? nut_hi) && (b =? nut_lo)
    then [a; b] :: matchAll_nut rest
    else matchAll_nut (b :: rest).
Proof. reflexivity. Qed.

Lemma matchAll_nut_occurrences_upto (n : nat) :
  forall s, (List.length s <= n)%nat ->
            Z.of_nat (List.length (matchAll_nut s)) = occurrences nut s.
Proof.
  induction n as [|n IH]; intros s Hlen.
  - destruct s; [reflexivity|cbn in Hlen; lia].
  - destruct s as [|a [|b rest]]; [reflexivity| |].
    + cbn [matchAll_nut occurrences is_prefix nut List.length].
      rewrite andb_false_r. reflexivity.
    + rewrite occurrences_cons, matchAll_nut_step.
      assert (Hp : is_prefix nut (a :: b :: rest)
                   = (a =? nut_hi) && (b =? nut_lo)).
      { cbn [is_prefix nut]. rewrite andb_true_r.
        rewrite (Z.eqb_sym nut_hi a), (Z.eqb_sym nut_lo b). reflexivity. }
      rewrite Hp.
      destruct (Z.eqb_spec a nut_hi) as [Ha|Ha];
        destruct (Z.eqb_spec b nut_lo) as [Hb|Hb]; cbn [andb];
        try (rewrite IH by (cbn in *; lia); reflexivity).
      (* a match: the next position cannot start another one *)
      cbn [List.length]. rewrite Nat2Z.inj_succ, IH by (cbn in Hlen; lia).
      rewrite occurrences_cons.
      replace (is_prefix nut (b :: rest)) with false
        by (subst b; destruct rest; reflexivity).
      lia.
Qed.

(** [(text.match(/🥜/g) || []).length] is the number of positions of
    the text at which the peanut occurs. *)
Lemma match_length_occurrences (s : jsstring) :
  or_empty_length (String_match_nut s) = occurrences nut s.
Proof.
  rewrite <- (matchAll_nut_occurrences_upto (List.length s) s (le_n _)).
  unfold String_match_nut, or_empty_length.
  destruct (matchAll_nut s); reflexivity.
Qed.

Lemma occurrences_nuts (n : nat) : occurrences nut (nuts n) = Z.of_nat n.
Proof.
  induction n as [|n IH]; [reflexivity|].
  cbn [nuts]. cbn [occurrences].
  replace (is_prefix nut (nut_hi :: nut_lo :: nuts n)) with true by reflexivity.
  replace (is_prefix nut (nut_lo :: nuts n)) with false
    by (destruct n; reflexivity).
  destruct n as [|n'].
  - reflexivity.
  - rewrite IH. lia.
Qed.

(** Peanuts glued to letters and to each other are all counted. *)
Example occurrences_no_word_boundary :
  (* "ab🥜🥜cd🥜" *)
  or_empty_length
    (String_match_nut [97; 98; 0xD83E; 0xDD5C; 0xD83E; 0xDD5C; 99; 100;
                       0xD83E; 0xDD5C]) = 3
  (* a lone half of the pair is not a peanut *)
  /\ or_empty_length (String_match_nut [0xD83E; 97; 0xDD5C; 0xD83E]) = 0.
Proof. split; reflexivity. Qed.

(** ** The aggregation loop *)

Lemma Normal_pair (a b c d : Z) :
  a = c -> b = d -> @Normal (Z * Z) (a, b) = Normal (c, d).
Proof. intros -> ->. reflexivity. Qed.

(** The callback only ever adds to the counters it is given: what it
    adds, and whether it throws, does not depend on their values. *)
Lemma countCast_shift (fid : Z) (cast : value) (s0 r0 : Z) :
  countCast fid cast (s0, r0)
  = bind (countCast fid cast (0, 0)) (shift s0 r0).
Proof.
  unfold countCast, match_nut.
  destruct (get cast "author") as [author|]; cbn [bind]; [|reflexivity].
  destruct (get author "fid") as [authorFid|]; cbn [bind]; [|reflexivity].
  destruct (get cast "text") as [[]|], (get cast "parent_author") as [pa|];
    destruct (strict_eq_num authorFid fid); cbn [bind]; try reflexivity;
    try (destruct (get_opt pa "fid") as [parentFid|]; cbn [bind];
         [|reflexivity];
         destruct (strict_eq_num parentFid fid); cbn [bind]; try reflexivity);
    unfold shift; cbn [fst snd]; apply Normal_pair; lia.
Qed.

Lemma forEach_app {S} (l1 l2 : list value) (cb : value -> S -> completion S)
      (acc : S) :
  forEach (l1 ++ l2) cb acc = bind (forEach l1 cb acc) (forEach l2 cb).
Proof.
  revert acc. induction l1 as [|x l1 IH]; intros acc; cbn [forEach app].
  - reflexivity.
  - destruct (cb x acc); cbn [bind]; [apply IH|reflexivity].
Qed.

Lemma forEach_shift (fid : Z) (items : list value) (s0 r0 : Z) :
  forEach items (countCast fid) (s0, r0)
  = bind (forEach items (countCast fid) (0, 0)) (shift s0 r0).
Proof.
  revert s0 r0. induction items as [|x items IH]; intros s0 r0.
  - cbn [forEach bind]. unfold shift. cbn [fst snd]. apply Normal_pair; lia.
  - cbn [forEach]. rewrite countCast_shift.
    destruct (countCast fid x (0, 0)) as [[ds dr]|e]; cbn [bind];
      [|reflexivity].
    unfold shift at 1. cbn [fst snd bind].
    rewrite (IH (s0 + ds) (r0 + dr)), (IH ds dr).
    destruct (forEach items (countCast fid) (0, 0)) as [[s r]|e];
      cbn [bind]; [|reflexivity].
    unfold shift. cbn [bind fst snd]. apply Normal_pair; lia.
Qed.

(** What the callback adds for a cast that carries a feed event. *)
Lemma countCast_carries (fid : Z) (cast : value) (e : FeedEvent) (s0 r0 : Z) :
  carries cast e ->
  countCast fid cast (s0, r0)
  = Normal (s0 + (if authorId e =? fid then occurrences nut (text e) else 0),
            r0 + (if match parentAuthorId e with
                     | Some p => p =? fid
                     | None => false
                     end
                  then occurrences nut (text e) else 0)).
Proof.
  intros (Ha & (pf & Hp & Hpf) & Ht).
  assert (Heq : strict_eq_num pf fid
                = match parentAuthorId e with
                  | Some p => p =? fid
                  | None => false
                  end).
  { destruct (parentAuthorId e) as [p|].
    - subst pf. reflexivity.
    - destruct pf; try reflexivity. exfalso. eapply Hpf. reflexivity. }
  unfold countCast.
  destruct (get cast "author") as [author|]; cbn [bind] in Ha |- *;
    [|discriminate].
  rewrite Ha. cbn [bind strict_eq_num].
  destruct (get cast "parent_author") as [pa|]; cbn [bind] in Hp |- *;
    [|discriminate].
  destruct (authorId e =? fid);
    rewrite ?Ht; cbn [bind match_nut]; rewrite ?Hp; cbn [bind];
    rewrite Heq;
    destruct (match parentAuthorId e with
              | Some p => p =? fid
              | None => false
              end);
    rewrite ?Ht; cbn [bind match_nut];
    rewrite ?match_length_occurrences; apply Normal_pair; lia.
Qed.

Lemma sent_of_cons (fid : Z) (e : FeedEvent) (events : list FeedEvent) :
  sent_of fid (e :: events)
  = (if authorId e =? fid then occurrences nut (text e) else 0)
    + sent_of fid events.
Proof.
  unfold sent_of. cbn [filter]. destruct (authorId e =? fid); reflexivity.
Qed.

Lemma received_of_cons (fid : Z) (e : FeedEvent) (events : list FeedEvent) :
  received_of fid (e :: events)
  = (if match parentAuthorId e with
        | Some p => p =? fid
        | None => false
        end
     then occurrences nut (text e) else 0)
    + received_of fid events.
Proof.
  unfold received_of. cbn [filter].
  destruct (match parentAuthorId e with Some p => p =? fid | None => false end);
    reflexivity.
Qed.

Lemma forEach_carries (fid : Z) (items : list value) (events : list FeedEvent) :
  Forall2 carries items events ->
  forall s0 r0,
    forEach items (countCast fid) (s0, r0)
    = Normal (s0 + sent_of fid events, r0 + received_of fid events).
Proof.
  induction 1 as [|cast e items events Hc _ IH]; intros s0 r0.
  - cbn [forEach sent_of received_of]. apply Normal_pair; cbn; lia.
  - cbn [forEach]. rewrite (countCast_carries fid cast e s0 r0 Hc).
    cbn [bind]. rewrite IH, sent_of_cons, received_of_cons.
    apply Normal_pair; lia.
Qed.

Lemma carries_castOf (e : FeedEvent) : carries (castOf e) e.
Proof.
  unfold carries, castOf. cbn. split; [reflexivity|]. split; [|reflexivity].
  destruct (parentAuthorId e) as [p|].
  - exists (VNum p). split; reflexivity.
  - exists VNull. split; [reflexivity|]. intros n; discriminate.
Qed.

Lemma Forall2_carries_castOf (events : list FeedEvent) :
  Forall2 carries (map castOf events) events.
Proof.
  induction events as [|e events IH]; constructor;
    [apply carries_castOf|exact IH].
Qed.

Lemma countNuts_feedBody (fid : Z) (items : list value) :
  countNuts fid (feedBody items) = forEach items (countCast fid) (0, 0).
Proof. reflexivity. Qed.

(** The state a cycle leaves when the [try] block runs to its end. *)
Lemma fetchNutsData_success (DAILY_ALLOWANCE fid : Z) (net : network)
      (clock : Z) (st : component) (s r : Z) :
  countNuts fid net = Normal (s, r) ->
  fetchNutsData DAILY_ALLOWANCE fid net clock st
  = {| nutsData :=
         {| sent := s; received := r;
            failedAttempts := failedAttempts (nutsData st)
                              + (if s >? DAILY_ALLOWANCE then 1 else 0);
            lastUpdated := clock |};
       isLoading := false;
       error := EmptyString |}.
Proof. intros H. unfold fetchNutsData. rewrite H. reflexivity. Qed.

(** The state a cycle leaves when the [try] block throws. *)
Lemma fetchNutsData_failure (DAILY_ALLOWANCE fid : Z) (net : network)
      (clock : Z) (st : component) (e : exn) :
  countNuts fid net = Throw e ->
  fetchNutsData DAILY_ALLOWANCE fid net clock st
  = {| nutsData := nutsData st;
       isLoading := false;
       error := "Failed to fetch nuts data" |}.
Proof. intros H. unfold fetchNutsData. rewrite H. reflexivity. Qed.

(** ** Aggregation (C5, C6, C8) *)

(** C5: on a batch of casts that carry feed events, the loop ends with
    [sent] the sum, over the events authored by the subject, of the
    number of literal occurrences of the peanut in the text, and
    [received] the same sum over the events whose parent author is the
    subject; these are the counts the cycle stores; a cast that matches
    neither test leaves both counters as they were. *)
Theorem aggregation_sums_occurrences
        (DAILY_ALLOWANCE fid : Z) (net : network) (data : value)
        (items : list value) (events : list FeedEvent) :
  await_json net = Normal data ->
  get data "casts" = Normal (VArr items) ->
  Forall2 carries items events ->
  countNuts fid net = Normal (sent_of fid events, received_of fid events)
  /\ (forall clock st,
        sent (nutsData (fetchNutsData DAILY_ALLOWANCE fid net clock st))
        = sent_of fid events
        /\ received (nutsData (fetchNutsData DAILY_ALLOWANCE fid net clock st))
           = received_of fid events)
  /\ (forall cast e acc,
        carries cast e ->
        authorId e <> fid ->
        parentAuthorId e <> Some fid ->
        countCast fid cast acc = Normal acc).
Proof.
  intros Hnet Hcasts Hitems.
  assert (Hcount : countNuts fid net
                   = Normal (sent_of fid events, received_of fid events)).
  { unfold countNuts. rewrite Hnet. cbn [bind]. rewrite Hcasts.
    cbn [bind call_forEach].
    rewrite (forEach_carries fid items events Hitems 0 0).
    apply Normal_pair; lia. }
  split; [exact Hcount|]. split.
  - intros clock st.
    rewrite (fetchNutsData_success _ _ _ _ _ _ _ Hcount). split; reflexivity.
  - intros cast e [s0 r0] Hc Hauthor Hparent.
    rewrite (countCast_carries fid cast e s0 r0 Hc).
    destruct (Z.eqb_spec (authorId e) fid) as [|_]; [contradiction|].
    destruct (parentAuthorId e) as [p|].
    + destruct (Z.eqb_spec p fid) as [->|_]; [contradiction|].
      apply Normal_pair; lia.
    + apply Normal_pair; lia.
Qed.

(** A batch for user 7: a cast of theirs with three peanuts, a reply to
    them with two, and an unrelated cast with one. *)
Lemma aggregation_sums_occurrences_witness :
  let events :=
    [ {| authorId := 7; parentAuthorId := None;
         text := 104 :: 105 :: nuts 3 |};
      {| authorId := 8; parentAuthorId := Some 7; text := nuts 2 |};
      {| authorId := 9; parentAuthorId := Some 8; text := nuts 1 |} ] in
  countNuts 7 (feedOf events) = Normal (3, 2)
  /\ (forall clock st,
        sent (nutsData (fetchNutsData 30 7 (feedOf events) clock st)) = 3
        /\ received (nutsData (fetchNutsData 30 7 (feedOf events) clock st)) = 2)
  /\ (forall cast e acc,
        carries cast e ->
        authorId e <> 7 ->
        parentAuthorId e <> Some 7 ->
        countCast 7 cast acc = Normal acc).
Proof.
  intros events.
  apply (aggregation_sums_occurrences 30 7 (feedOf events)
           (VObj [("casts", VArr (map castOf events))])
           (map castOf events) events).
  - reflexivity.
  - reflexivity.
  - apply Forall2_carries_castOf.
Defined.

(** C6: a cast authored by the subject in reply to the subject, with [k]
    peanuts in its text, adds [k] to [sent] and [k] to [received] of the
    same cycle. *)
Theorem self_reply_counts_both
        (DAILY_ALLOWANCE fid : Z) (pre post : list value) (cast : value)
        (txt : jsstring) (s r : Z) :
  carries cast {| authorId := fid; parentAuthorId := Some fid; text := txt |} ->
  countNuts fid (feedBody (pre ++ post)) = Normal (s, r) ->
  let k := occurrences nut txt in
  countCast fid cast (0, 0) = Normal (k, k)
  /\ countNuts fid (feedBody (pre ++ cast :: post)) = Normal (s + k, r + k)
  /\ (forall clock st,
        let st' := fetchNutsData DAILY_ALLOWANCE fid
                     (feedBody (pre ++ cast :: post)) clock st in
        sent (nutsData st') = s + k /\ received (nutsData st') = r + k).
Proof.
  intros Hc Hrest k.
  assert (Hcast : forall s0 r0,
             countCast fid cast (s0, r0) = Normal (s0 + k, r0 + k)).
  { intros s0 r0. rewrite (countCast_carries fid cast _ s0 r0 Hc).
    cbn [authorId parentAuthorId text]. rewrite Z.eqb_refl. reflexivity. }
  assert (Hall : countNuts fid (feedBody (pre ++ cast :: post))
                 = Normal (s + k, r + k)).
  { rewrite countNuts_feedBody in *.
    rewrite forEach_app in *.
    destruct (forEach pre (countCast fid) (0, 0)) as [[s1 r1]|e];
      cbn [bind] in *; [|discriminate].
    cbn [forEach]. rewrite Hcast. cbn [bind].
    rewrite forEach_shift in Hrest. rewrite forEach_shift.
    destruct (forEach post (countCast fid) (0, 0)) as [[s2 r2]|e];
      cbn [bind] in *; [|discriminate].
    unfold shift in *. cbn [fst snd] in *.
    injection Hrest as Hs Hr. apply Normal_pair; lia. }
  split; [apply Hcast|]. split; [exact Hall|].
  intros clock st. cbv zeta.
  rewrite (fetchNutsData_success _ _ _ _ _ _ _ Hall). split; reflexivity.
Qed.

(** The spec's scenario: a self-reply with two peanuts. *)
Lemma self_reply_counts_both_witness :
  let cast := castOf {| authorId := 7; parentAuthorId := Some 7;
                        text := nuts 2 |} in
  countCast 7 cast (0, 0) = Normal (2, 2)
  /\ countNuts 7 (feedBody ([] ++ cast :: [])) = Normal (0 + 2, 0 + 2)
  /\ (forall clock st,
        let st' := fetchNutsData 30 7 (feedBody ([] ++ cast :: [])) clock st in
        sent (nutsData st') = 0 + 2 /\ received (nutsData st') = 0 + 2).
Proof.
  intros cast.
  apply (self_reply_counts_both 30 7 [] [] cast (nuts 2) 0 0).
  - apply carries_castOf.
  - reflexivity.
Defined.

(** C8: the counts of a cycle are determined by the fetched batch and
    the subject alone: when the loop completes they are the same from
    any component state and at any time, and running the cycle again on
    the same batch leaves [sent] and [received] as the first run left
    them; the loop itself only adds to its two counters, which start at
    zero on every run. *)
Theorem aggregation_deterministic
        (DAILY_ALLOWANCE fid : Z) (net : network)
        (clock1 clock2 : Z) (st1 st2 : component) :
  match countNuts fid net with
  | Normal (s, r) =>
      sent (nutsData (fetchNutsData DAILY_ALLOWANCE fid net clock1 st1)) = s
      /\ received (nutsData (fetchNutsData DAILY_ALLOWANCE fid net clock1 st1)) = r
      /\ sent (nutsData (fetchNutsData DAILY_ALLOWANCE fid net clock2 st2)) = s
      /\ received (nutsData (fetchNutsData DAILY_ALLOWANCE fid net clock2 st2)) = r
  | Throw _ => True
  end
  /\ (let once := fetchNutsData DAILY_ALLOWANCE fid net clock1 st1 in
      let twice := fetchNutsData DAILY_ALLOWANCE fid net clock2 once in
      sent (nutsData twice) = sent (nutsData once)
      /\ received (nutsData twice) = received (nutsData once))
  /\ (forall items s0 r0,
        forEach items (countCast fid) (s0, r0)
        = bind (forEach items (countCast fid) (0, 0)) (shift s0 r0)).
Proof.
  split; [|split; [|intros; apply forEach_shift]];
    unfold fetchNutsData;
    destruct (countNuts fid net) as [[s r]|e]; cbn; repeat split; reflexivity.
Qed.

(** ** The refresh cycle (C3, C4, C7, C9, C10) *)

Lemma failedAttempts_step (DAILY_ALLOWANCE fid : Z) (net : network)
      (clock : Z) (st : component) :
  failedAttempts (nutsData (fetchNutsData DAILY_ALLOWANCE fid net clock st))
  = failedAttempts (nutsData st)
    + match countNuts fid net with
      | Normal (s, _) => if s >? DAILY_ALLOWANCE then 1 else 0
      | Throw _ => 0
      end.
Proof.
  unfold fetchNutsData.
  destruct (countNuts fid net) as [[s r]|e]; cbn; lia.
Qed.

(** C3: a cycle changes [failedAttempts] by exactly 1 when it completes
    with [sent] strictly above the allowance and by 0 otherwise, the
    amount being fixed by this cycle's batch alone, whatever the state
    before it; so the count never
    decreases, over one cycle or over any sequence of cycles. *)
Theorem failedAttempts_never_decreases
        (DAILY_ALLOWANCE fid : Z) (net : network) (clock : Z)
        (st : component) (cycles : list (network * Z)) :
  failedAttempts (nutsData (fetchNutsData DAILY_ALLOWANCE fid net clock st))
  = failedAttempts (nutsData st)
    + match countNuts fid net with
      | Normal (s, _) => if s >? DAILY_ALLOWANCE then 1 else 0
      | Throw _ => 0
      end
  /\ (forall other,
        failedAttempts
          (nutsData (fetchNutsData DAILY_ALLOWANCE fid net clock other))
        - failedAttempts (nutsData other)
        = failedAttempts
            (nutsData (fetchNutsData DAILY_ALLOWANCE fid net clock st))
          - failedAttempts (nutsData st))
  /\ failedAttempts (nutsData st)
     <= failedAttempts (nutsData (fetchNutsData DAILY_ALLOWANCE fid net clock st))
  /\ failedAttempts (nutsData st)
     <= failedAttempts (nutsData (refresh DAILY_ALLOWANCE fid st cycles)).
Proof.
  assert (Hstep : forall n c s,
             failedAttempts (nutsData s)
             <= failedAttempts
                  (nutsData (fetchNutsData DAILY_ALLOWANCE fid n c s))).
  { intros n c s. rewrite failedAttempts_step.
    destruct (countNuts fid n) as [[x y]|e]; [|lia].
    destruct (x >? DAILY_ALLOWANCE); lia. }
  split; [apply failedAttempts_step|].
  split; [intros other; rewrite !failedAttempts_step; lia|].
  split; [apply Hstep|].
  unfold refresh. revert st.
  induction cycles as [|[n c] cycles IH]; intros st; cbn [fold_left fst snd].
  - lia.
  - etransitivity; [apply (Hstep n c st)|apply IH].
Qed.

(** The spec's scenario: allowance 30; a cycle that finds 35 sent, then
    one that finds 10. *)
Example overage_then_quiet :
  let over := feedOf [ {| authorId := 7; parentAuthorId := None;
                          text := nuts 35 |} ] in
  let quiet := feedOf [ {| authorId := 7; parentAuthorId := None;
                           text := nuts 10 |} ] in
  let st0 := initialState 1000 in
  let st1 := fetchNutsData 30 7 over 2000 st0 in
  let st2 := fetchNutsData 30 7 quiet 3000 st1 in
  (sent (nutsData st1), failedAttempts (nutsData st1)) = (35, 1)
  /\ (sent (nutsData st2), failedAttempts (nutsData st2)) = (10, 1).
Proof. vm_compute. split; reflexivity. Qed.

(** C4: a cycle whose fetch, body parsing or processing throws leaves
    [nutsData] (sent, received, failedAttempts, lastUpdated) exactly as
    it was and sets the error message; the loading flag, not part of
    [nutsData], is cleared as after every cycle. *)
Theorem failed_cycle_keeps_nutsData
        (DAILY_ALLOWANCE fid : Z) (net : network) (clock : Z)
        (st : component) (e : exn) :
  countNuts fid net = Throw e ->
  let st' := fetchNutsData DAILY_ALLOWANCE fid net clock st in
  sent (nutsData st') = sent (nutsData st)
  /\ received (nutsData st') = received (nutsData st)
  /\ failedAttempts (nutsData st') = failedAttempts (nutsData st)
  /\ lastUpdated (nutsData st') = lastUpdated (nutsData st)
  /\ error st' = "Failed to fetch nuts data"
  /\ st' = {| nutsData := nutsData st; isLoading := false;
              error := "Failed to fetch nuts data" |}.
Proof.
  intros H. cbv zeta. rewrite (fetchNutsData_failure _ _ _ _ _ _ H).
  repeat split; reflexivity.
Qed.

Lemma failed_cycle_keeps_nutsData_witness :
  let st := {| nutsData := {| sent := 12; received := 4; failedAttempts := 2;
                              lastUpdated := 5000 |};
               isLoading := false; error := EmptyString |} in
  let st' := fetchNutsData 30 7 Rejected 6000 st in
  sent (nutsData st') = sent (nutsData st)
  /\ received (nutsData st') = received (nutsData st)
  /\ failedAttempts (nutsData st') = failedAttempts (nutsData st)
  /\ lastUpdated (nutsData st') = lastUpdated (nutsData st)
  /\ error st' = "Failed to fetch nuts data"
  /\ st' = {| nutsData := nutsData st; isLoading := false;
              error := "Failed to fetch nuts data" |}.
Proof.
  intros st.
  apply (failed_cycle_keeps_nutsData 30 7 Rejected 6000 st NetworkError).
  reflexivity.
Defined.

(** Each way the [try] block can throw: the fetch rejects; the body is
    not JSON; the body has no [casts] array (an error payload); a cast
    of the subject has no string [text], after an earlier cast was
    already counted. *)
Example ways_to_fail :
  countNuts 7 Rejected = Throw NetworkError
  /\ countNuts 7 (Response (Throw SyntaxError)) = Throw SyntaxError
  /\ countNuts 7 (Response (Normal (VObj [("message", VStr [])])))
     = Throw TypeError
  /\ countNuts 7 (Response (Normal VNull)) = Throw TypeError
  /\ countNuts 7 (feedBody
                    [ castOf {| authorId := 7; parentAuthorId := None;
                                text := nuts 3 |};
                      VObj [("author", VObj [("fid", VNum 7)])] ])
     = Throw TypeError
  /\ countNuts 7 (feedBody [ VObj [("text", VStr (nuts 1))] ])
     = Throw TypeError.
Proof. vm_compute. repeat split; reflexivity. Qed.

(** A cast of someone else without a [text] does not throw: the text is
    only read when one of the two tests holds. *)
Example text_read_only_when_matching :
  countNuts 7 (feedBody [ VObj [("author", VObj [("fid", VNum 8)])] ])
  = Normal (0, 0).
Proof. reflexivity. Qed.

(** C7: a cycle that completes stores the counts of the fetched batch
    as [sent] and [received], whatever they were before; sets
    [lastUpdated] to the clock; clears the error; and takes from the
    previous state only [failedAttempts]. *)
Theorem successful_cycle_replaces_counts
        (DAILY_ALLOWANCE fid : Z) (net : network) (clock : Z)
        (st : component) (s r : Z) :
  countNuts fid net = Normal (s, r) ->
  fetchNutsData DAILY_ALLOWANCE fid net clock st
  = {| nutsData :=
         {| sent := s; received := r;
            failedAttempts := failedAttempts (nutsData st)
                              + (if s >? DAILY_ALLOWANCE then 1 else 0);
            lastUpdated := clock |};
       isLoading := false;
       error := EmptyString |}
  /\ (forall other,
        failedAttempts (nutsData other) = failedAttempts (nutsData st) ->
        nutsData (fetchNutsData DAILY_ALLOWANCE fid net clock other)
        = nutsData (fetchNutsData DAILY_ALLOWANCE fid net clock st)).
Proof.
  intros H. split; [apply fetchNutsData_success, H|].
  intros other Hfa.
  rewrite !(fetchNutsData_success _ _ _ _ _ _ _ H). cbn [nutsData].
  rewrite Hfa. reflexivity.
Qed.

Lemma successful_cycle_replaces_counts_witness :
  let net := feedOf [ {| authorId := 7; parentAuthorId := None;
                         text := nuts 4 |};
                      {| authorId := 8; parentAuthorId := Some 7;
                         text := nuts 1 |} ] in
  let st := {| nutsData := {| sent := 31; received := 9; failedAttempts := 2;
                              lastUpdated := 5000 |};
               isLoading := false; error := "Failed to fetch nuts data" |} in
  fetchNutsData 30 7 net 6000 st
  = {| nutsData :=
         {| sent := 4; received := 1;
            failedAttempts := failedAttempts (nutsData st)
                              + (if 4 >? 30 then 1 else 0);
            lastUpdated := 6000 |};
       isLoading := false;
       error := EmptyString |}
  /\ (forall other,
        failedAttempts (nutsData other) = failedAttempts (nutsData st) ->
        nutsData (fetchNutsData 30 7 net 6000 other)
        = nutsData (fetchNutsData 30 7 net 6000 st)).
Proof.
  intros net st.
  apply (successful_cycle_replaces_counts 30 7 net 6000 st 4 1).
  reflexivity.
Defined.

(** C9: when the component is created, and before any cycle has
    completed, [nutsData] is all zeros with [lastUpdated] the clock at
    creation, the loading flag is set, there is no error, and the
    component renders the loading placeholder. *)
Theorem initial_state_zero_counts
        (DAILY_ALLOWANCE RESET_HOUR_UTC fid : Z) (created now : Z) :
  let st := refresh DAILY_ALLOWANCE fid (initialState created) [] in
  nutsData st = {| sent := 0; received := 0; failedAttempts := 0;
                   lastUpdated := created |}
  /\ isLoading st = true
  /\ error st = EmptyString
  /\ render DAILY_ALLOWANCE RESET_HOUR_UTC st now = LoadingView.
Proof. cbv zeta. repeat split; reflexivity. Qed.

(** C10: after any cycle the loading flag is false; after the first
    cycle the component shows the error when the cycle failed and the
    card when it completed, never the loading placeholder. *)
Theorem loading_cleared_after_cycle
        (DAILY_ALLOWANCE RESET_HOUR_UTC fid : Z) (net : network)
        (clock : Z) (st : component) (created now : Z) :
  isLoading (fetchNutsData DAILY_ALLOWANCE fid net clock st) = false
  /\ render DAILY_ALLOWANCE RESET_HOUR_UTC
            (fetchNutsData DAILY_ALLOWANCE fid net clock (initialState created))
            now
     = match countNuts fid net with
       | Throw _ => ErrorView "Failed to fetch nuts data"
       | Normal (s, r) => CardView r (shownRemaining (DAILY_ALLOWANCE - s)) s
       end.
Proof.
  unfold fetchNutsData.
  destruct (countNuts fid net) as [[s r]|e]; split; reflexivity.
Qed.

(** * Further properties of the code *)

(** ** The reset instant *)

Lemma time_fields (t : Z) :
  t = Day t * msPerDay + HourFromTime t * msPerHour
      + MinFromTime t * msPerMinute + SecFromTime t * msPerSecond
      + msFromTime t.
Proof.
  unfold Day, HourFromTime, MinFromTime, SecFromTime, msFromTime,
    msPerDay, msPerHour, msPerMinute, msPerSecond, HoursPerDay,
    MinutesPerHour, SecondsPerMinute.
  Z.div_mod_to_equations. lia.
Qed.

(** [lastReset] is fixed by the reset-hour window that holds [now]. *)
Lemma lastReset_window (RESET_HOUR_UTC now d : Z) :
  0 <= RESET_HOUR_UTC <= 23 ->
  clockInRange now ->
  d * msPerDay + RESET_HOUR_UTC * msPerHour <= now
  < d * msPerDay + RESET_HOUR_UTC * msPerHour + msPerDay ->
  lastReset RESET_HOUR_UTC now
  = Some (d * msPerDay + RESET_HOUR_UTC * msPerHour).
Proof.
  intros Hh Hnow Hwin.
  rewrite (lastReset_value RESET_HOUR_UTC now Hh Hnow).
  pose proof (HourFromTime_range now) as [Hr Hb].
  unfold MakeDate, MakeTime. f_equal.
  destruct (Z.ltb_spec (HourFromTime now) RESET_HOUR_UTC);
    unfold msPerDay, msPerHour, msPerMinute, msPerSecond in *; lia.
Qed.

(** X1: the reset announced is strictly after [now] and at most 24
    hours after it. *)
Theorem nextReset_within_a_day
        (DAILY_ALLOWANCE RESET_HOUR_UTC : Z) (st : component) (now : Z) :
  0 <= RESET_HOUR_UTC <= 23 ->
  clockInRange now ->
  exists nr,
    nextReset (calculateDailyAllowance DAILY_ALLOWANCE RESET_HOUR_UTC st now)
    = Some nr
    /\ now < nr <= now + 86400000.
Proof.
  intros Hh Hnow.
  destruct (lastReset_most_recent RESET_HOUR_UTC now Hh Hnow)
    as (b & Hb & Hle & Hlt).
  exists (b + 86400000). unfold calculateDailyAllowance. cbn [nextReset].
  rewrite Hb. unfold msPerDay in *. cbn. split; [reflexivity|lia].
Qed.

Lemma nextReset_within_a_day_witness :
  exists nr,
    nextReset (calculateDailyAllowance 30 12 (initialState 0) 1709269200000)
    = Some nr
    /\ 1709269200000 < nr <= 1709269200000 + 86400000.
Proof.
  apply (nextReset_within_a_day 30 12 (initialState 0) 1709269200000).
  - lia.
  - unfold clockInRange, maxTime, msPerDay. lia.
Defined.



(** X3: the reset announced stays the same for every later clock
    reading before it, and from that instant on it is exactly 24 hours
    later. *)
Theorem nextReset_steps_daily
        (DAILY_ALLOWANCE RESET_HOUR_UTC : Z) (st st' : component)
        (now later nr : Z) :
  0 <= RESET_HOUR_UTC <= 23 ->
  clockInRange now ->
  clockInRange later ->
  nextReset (calculateDailyAllowance DAILY_ALLOWANCE RESET_HOUR_UTC st now)
  = Some nr ->
  now <= later < nr + 86400000 ->
  nextReset (calculateDailyAllowance DAILY_ALLOWANCE RESET_HOUR_UTC st' later)
  = Some (if later <? nr then nr else nr + 86400000).
Proof.
  intros Hh Hnow Hlater Hnr Hle.
  pose proof (lastReset_value RESET_HOUR_UTC now Hh Hnow) as Hb.
  destruct (lastReset_most_recent RESET_HOUR_UTC now Hh Hnow)
    as (b & Hb' & Hble & Hblt).
  set (d := if HourFromTime now <? RESET_HOUR_UTC then Day now - 1 else Day now)
    in *.
  assert (Eb : b = d * msPerDay + RESET_HOUR_UTC * msPerHour).
  { rewrite Hb in Hb'. injection Hb' as <-.
    unfold MakeDate, MakeTime, msPerMinute, msPerSecond. lia. }
  unfold calculateDailyAllowance in *. cbn [nextReset] in *.
  rewrite Hb' in Hnr. cbn [getTime num_add] in Hnr. injection Hnr as <-.
  destruct (Z.ltb_spec later (b + 86400000)) as [Hwin|Hwin].
  - rewrite (lastReset_window RESET_HOUR_UTC later d Hh Hlater)
      by (unfold msPerDay in *; lia).
    cbn [getTime num_add]. rewrite Eb. reflexivity.
  - rewrite (lastReset_window RESET_HOUR_UTC later (d + 1) Hh Hlater)
      by (unfold msPerDay in *; lia).
    cbn [getTime num_add]. f_equal. unfold msPerDay in *. lia.
Qed.

Lemma nextReset_steps_daily_witness :
  nextReset (calculateDailyAllowance 30 12 (initialState 5)
               (1709269200000 + 30000000))
  = Some (if 1709269200000 + 30000000 <? 1709294400000
          then 1709294400000 else 1709294400000 + 86400000).
Proof.
  apply (nextReset_steps_daily 30 12 (initialState 0) (initialState 5)
           1709269200000 (1709269200000 + 30000000) 1709294400000).
  - lia.
  - unfold clockInRange, maxTime, msPerDay. lia.
  - unfold clockInRange, maxTime, msPerDay. lia.
  - vm_compute. reflexivity.
  - lia.
Defined.

(** X4: the hours shown are between 0 and 24 whenever the JSX reads the
    clock at or after [calculateDailyAllowance] did and before the
    reset; 24 is shown only at the very instant of a reset. *)
Theorem hoursToReset_range
        (DAILY_ALLOWANCE RESET_HOUR_UTC : Z) (st : component)
        (now clock nr : Z) :
  0 <= RESET_HOUR_UTC <= 23 ->
  clockInRange now ->
  nextReset (calculateDailyAllowance DAILY_ALLOWANCE RESET_HOUR_UTC st now)
  = Some nr ->
  now <= clock < nr ->
  exists h,
    hoursToReset (Some nr) clock = Some h
    /\ 0 <= h <= 24
    /\ (h = 24 <-> clock = nr - 86400000).
Proof.
  intros Hh Hnow Hnr Hclock.
  destruct (lastReset_most_recent RESET_HOUR_UTC now Hh Hnow)
    as (b & Hb & Hlo & Hhi).
  unfold calculateDailyAllowance in Hnr. cbn [nextReset] in Hnr.
  rewrite Hb in Hnr. cbn [getTime num_add] in Hnr. injection Hnr as <-.
  unfold msPerDay in *.
  unfold hoursToReset. cbn [num_sub option_map].
  eexists. split; [reflexivity|].
  Z.div_mod_to_equations. lia.
Qed.

Lemma hoursToReset_range_witness :
  exists h,
    hoursToReset (Some 1709294400000) 1709269200001 = Some h
    /\ 0 <= h <= 24
    /\ (h = 24 <-> 1709269200001 = 1709294400000 - 86400000).
Proof.
  apply (hoursToReset_range 30 12 (initialState 0)
           1709269200000 1709269200001 1709294400000).
  - lia.
  - unfold clockInRange, maxTime, msPerDay. lia.
  - vm_compute. reflexivity.
  - lia.
Defined.

(** X20: [d.setUTCDate(d.getUTCDate() - 1)] moves a Date back by
    exactly 24 hours, keeping the time of day, also across the first of
    a month or of a year. *)
Theorem setUTCDate_previous_day (t : Z) :
  clockInRange t ->
  setUTCDate (newDate t) (num_sub (getUTCDate (newDate t)) (Some 1))
  = Some (t - 86400000)
  /\ Day (t - 86400000) = Day t - 1
  /\ TimeWithinDay (t - 86400000) = TimeWithinDay t.
Proof.
  intros Ht. unfold clockInRange, maxTime, msPerDay in Ht.
  unfold newDate. rewrite (TimeClip_in_range t) by (unfold maxTime; lia).
  cbn [getUTCDate option_map num_sub setUTCDate].
  rewrite MakeDay_previous.
  assert (Hd : Day (t - 86400000) = Day t - 1).
  { unfold Day, msPerDay.
    replace (t - 86400000) with (t + (-1) * 86400000) by lia.
    rewrite Z.div_add by lia. lia. }
  assert (Hw : TimeWithinDay (t - 86400000) = TimeWithinDay t).
  { unfold TimeWithinDay, msPerDay.
    replace (t - 86400000) with (t + (-1) * 86400000) by lia.
    apply Z.mod_add. lia. }
  split; [|split; assumption].
  assert (E : MakeDate (Day t - 1) (TimeWithinDay t) = t - 86400000).
  { unfold MakeDate, TimeWithinDay, Day, msPerDay.
    pose proof (Z.div_mod t 86400000 ltac:(lia)). lia. }
  rewrite E. apply TimeClip_in_range. unfold maxTime. lia.
Qed.

(** From 2025-01-01T03:04:05.006Z to 2024-12-31T03:04:05.006Z. *)
Lemma setUTCDate_previous_day_witness :
  setUTCDate (newDate 1735700645006)
             (num_sub (getUTCDate (newDate 1735700645006)) (Some 1))
  = Some (1735700645006 - 86400000)
  /\ Day (1735700645006 - 86400000) = Day 1735700645006 - 1
  /\ TimeWithinDay (1735700645006 - 86400000) = TimeWithinDay 1735700645006.
Proof.
  apply (setUTCDate_previous_day 1735700645006).
  unfold clockInRange, maxTime, msPerDay. lia.
Defined.

Example previous_day_across_new_year :
  (YearFromTime 1735700645006, MonthFromTime 1735700645006,
   DateFromTime 1735700645006) = (2025, 0, 1)
  /\ (YearFromTime (1735700645006 - 86400000),
      MonthFromTime (1735700645006 - 86400000),
      DateFromTime (1735700645006 - 86400000)) = (2024, 11, 31).
Proof. vm_compute. split; reflexivity. Qed.

(** ** The text scan *)

(** Induction following the scan: two code units at a time. *)
Lemma scan_ind (P : jsstring -> Prop) :
  P [] ->
  (forall a, P [a]) ->
  (forall a b rest, P rest -> P (b :: rest) -> P (a :: b :: rest)) ->
  forall s, P s.
Proof.
  intros Hnil Hone Hstep s.
  assert (H : P s /\ forall a, P (a :: s)).
  { induction s as [|b rest [IH1 IH2]].
    - split; [exact Hnil|exact Hone].
    - split; [apply IH2|]. intros a. apply Hstep; [exact IH1|apply IH2]. }
  exact (proj1 H).
Qed.

Lemma matchAll_nut_all_nut (s : jsstring) :
  Forall (fun m => m = nut) (matchAll_nut s).
Proof.
  induction s as [|a|a b rest IH1 IH2] using scan_ind;
    [constructor|constructor|].
  rewrite matchAll_nut_step.
  destruct (Z.eqb_spec a nut_hi) as [->|]; cbn [andb]; [|exact IH2].
  destruct (Z.eqb_spec b nut_lo) as [->|]; [|exact IH2].
  constructor; [reflexivity|exact IH1].
Qed.

Lemma matchAll_nut_length (s : jsstring) :
  (2 * List.length (matchAll_nut s) <= List.length s)%nat.
Proof.
  induction s as [|a|a b rest IH1 IH2] using scan_ind;
    [cbn; lia|cbn; lia|].
  rewrite matchAll_nut_step.
  destruct ((a =? nut_hi) && (b =? nut_lo)); cbn [List.length] in *; lia.
Qed.

(** X5: [text.match(/🥜/g)] is [null] exactly when the text holds no
    peanut; otherwise it is a non-empty array of peanuts, one for each
    occurrence, and twice its length is at most the length of the
    text. *)
Theorem String_match_nut_result (s : jsstring) :
  match String_match_nut s with
  | None => occurrences nut s = 0
  | Some ms =>
      ms <> []
      /\ Forall (fun m => m = nut) ms
      /\ Z.of_nat (List.length ms) = occurrences nut s
      /\ (2 * List.length ms <= List.length s)%nat
  end.
Proof.
  pose proof (match_length_occurrences s) as Hocc.
  pose proof (matchAll_nut_all_nut s) as Hall.
  pose proof (matchAll_nut_length s) as Hlen.
  unfold String_match_nut, or_empty_length in *.
  destruct (matchAll_nut s) as [|m ms].
  - symmetry. exact Hocc.
  - repeat split; try assumption. discriminate.
Qed.

Lemma is_prefix_nut_cons (x : Z) (s : jsstring) :
  is_prefix nut (x :: s)
  = (x =? nut_hi) && match s with
                     | y :: _ => y =? nut_lo
                     | [] => false
                     end.
Proof.
  cbn [is_prefix nut]. rewrite (Z.eqb_sym nut_hi x).
  destruct s as [|y s']; [reflexivity|].
  rewrite andb_true_r, (Z.eqb_sym nut_lo y). reflexivity.
Qed.

(** X6: the count of a concatenation is the sum of the counts plus one
    when a peanut straddles the seam. *)
Theorem count_concatenation (s1 s2 : jsstring) :
  or_empty_length (String_match_nut (s1 ++ s2)%list)
  = or_empty_length (String_match_nut s1)
    + or_empty_length (String_match_nut s2)
    + seam s1 s2.
Proof.
  rewrite !match_length_occurrences.
  induction s1 as [|x s1 IH].
  - cbn. lia.
  - cbn [app]. rewrite !occurrences_cons, IH, !is_prefix_nut_cons.
    destruct s1 as [|y s1'].
    + cbn [app occurrences seam last].
      destruct s2 as [|z s2']; cbn [seam]; rewrite ?andb_false_r; [lia|].
      cbn [last]. destruct ((x =? nut_hi) && (z =? nut_lo)); lia.
    + cbn [app].
      assert (Hs : seam (x :: y :: s1') s2 = seam (y :: s1') s2).
      { destruct s2; reflexivity. }
      rewrite Hs. lia.
Qed.

Example seam_peanut :
  (* one half at the end of the first text, the other at the start of
     the second *)
  or_empty_length (String_match_nut ([104; 0xD83E] ++ [0xDD5C; 105])%list) = 1
  /\ or_empty_length (String_match_nut [104; 0xD83E]) = 0
  /\ or_empty_length (String_match_nut [0xDD5C; 105]) = 0.
Proof. repeat split; reflexivity. Qed.

(** ** The aggregation loop on arbitrary response bodies *)

Lemma get_throws (v : value) (k : string) (e : exn) :
  get v k = Throw e -> e = TypeError.
Proof. destruct v; cbn; congruence. Qed.

Lemma get_opt_never_throws (v : value) (k : string) :
  exists w, get_opt v k = Normal w.
Proof. destruct v; cbn; eauto. Qed.

(** Reading the text and counting its peanuts: a throw is a
    [TypeError], a result is not negative. *)
Lemma text_count_cases (cast : value) :
  (text <- get cast "text" ;; match_nut text) = Throw TypeError
  \/ exists m, (text <- get cast "text" ;; match_nut text) = Normal m
               /\ 0 <= or_empty_length m.
Proof.
  destruct (get cast "text") as [text|e] eqn:Ht; cbn [bind].
  - destruct text; cbn [match_nut]; auto.
    right. eexists. split; [reflexivity|].
    unfold or_empty_length. destruct (String_match_nut s); lia.
  - left. f_equal. eapply get_throws, Ht.
Qed.

(** What the callback does to fresh counters: it throws a [TypeError]
    or adds two amounts that are not negative. *)
Lemma countCast_cases (fid : Z) (cast : value) :
  countCast fid cast (0, 0) = Throw TypeError
  \/ exists ds dr, countCast fid cast (0, 0) = Normal (ds, dr)
                   /\ 0 <= ds /\ 0 <= dr.
Proof.
  unfold countCast.
  destruct (get cast "author") as [author|e] eqn:Ha; cbn [bind];
    [|left; f_equal; eapply get_throws, Ha].
  destruct (get author "fid") as [authorFid|e] eqn:Haf; cbn [bind];
    [|left; f_equal; eapply get_throws, Haf].
  assert (Hsent :
    (if strict_eq_num authorFid fid
     then m <- (text <- get cast "text" ;; match_nut text) ;;
          Normal (0 + or_empty_length m)
     else Normal 0) = Throw TypeError
    \/ exists ds,
        (if strict_eq_num authorFid fid
         then m <- (text <- get cast "text" ;; match_nut text) ;;
              Normal (0 + or_empty_length m)
         else Normal 0) = Normal ds /\ 0 <= ds).
  { destruct (strict_eq_num authorFid fid).
    - destruct (text_count_cases cast) as [->|(m & -> & Hm)]; cbn [bind];
        [auto|]. right. eexists. split; [reflexivity|lia].
    - right. exists 0. split; [reflexivity|lia]. }
  destruct Hsent as [->|(ds & -> & Hds)]; cbn [bind]; [auto|].
  destruct (get cast "parent_author") as [pa|e] eqn:Hpa; cbn [bind];
    [|left; f_equal; eapply get_throws, Hpa].
  destruct (get_opt_never_throws pa "fid") as (parentFid & ->). cbn [bind].
  destruct (strict_eq_num parentFid fid).
  - destruct (text_count_cases cast) as [->|(m & -> & Hm)]; cbn [bind];
      [auto|]. right. do 2 eexists. split; [reflexivity|lia].
  - right. do 2 eexists. split; [reflexivity|lia].
Qed.

Lemma forEach_cases (fid : Z) (items : list value) :
  forEach items (countCast fid) (0, 0) = Throw TypeError
  \/ exists s r, forEach items (countCast fid) (0, 0) = Normal (s, r)
                 /\ 0 <= s /\ 0 <= r.
Proof.
  induction items as [|x items IH].
  - right. exists 0, 0. cbn. repeat split; lia.
  - cbn [forEach].
    destruct (countCast_cases fid x) as [->|(ds & dr & -> & Hds & Hdr)];
      cbn [bind]; [auto|].
    rewrite forEach_shift.
    destruct IH as [->|(s & r & -> & Hs & Hr)]; cbn [bind]; [auto|].
    right. unfold shift. cbn [fst snd]. do 2 eexists.
    split; [reflexivity|lia].
Qed.

(** Two casts can be handled in either order. *)
Lemma countCast_commute {A} (fid : Z) (x y : value) (acc : Z * Z)
      (k : Z * Z -> completion A) :
  bind (countCast fid x acc) (fun a => bind (countCast fid y a) k)
  = bind (countCast fid y acc) (fun a => bind (countCast fid x a) k).
Proof.
  destruct acc as [s0 r0].
  rewrite (countCast_shift fid x s0 r0), (countCast_shift fid y s0 r0).
  destruct (countCast_cases fid x) as [Hx|(dsx & drx & Hx & _)];
    destruct (countCast_cases fid y) as [Hy|(dsy & dry & Hy & _)];
    rewrite Hx, Hy; cbn [bind]; unfold shift; cbn [bind fst snd].
  - reflexivity.
  - rewrite (countCast_shift fid x), Hx. reflexivity.
  - rewrite (countCast_shift fid y), Hy. reflexivity.
  - rewrite (countCast_shift fid y), (countCast_shift fid x), Hx, Hy.
    cbn [bind]. unfold shift. cbn [fst snd].
    replace (s0 + dsy + dsx) with (s0 + dsx + dsy) by lia.
    replace (r0 + dry + drx) with (r0 + drx + dry) by lia.
    reflexivity.
Qed.

Lemma forEach_Permutation (fid : Z) (items items' : list value) :
  Permutation items items' ->
  forall acc,
    forEach items (countCast fid) acc = forEach items' (countCast fid) acc.
Proof.
  induction 1 as [|x l l' _ IH|x y l|l l' l'' _ IH1 _ IH2]; intros acc.
  - reflexivity.
  - cbn [forEach]. destruct (countCast fid x acc); cbn [bind];
      [apply IH|reflexivity].
  - cbn [forEach]. apply countCast_commute.
  - rewrite IH1. apply IH2.
Qed.

(** X7: the counts of a cycle, and whether it fails, do not depend on
    the order of the casts in the response. *)
Theorem counts_ignore_order
        (DAILY_ALLOWANCE fid : Z) (items items' : list value)
        (clock : Z) (st : component) :
  Permutation items items' ->
  countNuts fid (feedBody items') = countNuts fid (feedBody items)
  /\ fetchNutsData DAILY_ALLOWANCE fid (feedBody items') clock st
     = fetchNutsData DAILY_ALLOWANCE fid (feedBody items) clock st.
Proof.
  intros Hperm.
  assert (H : countNuts fid (feedBody items')
              = countNuts fid (feedBody items)).
  { rewrite !countNuts_feedBody. symmetry.
    apply forEach_Permutation, Hperm. }
  split; [exact H|]. unfold fetchNutsData. rewrite H. reflexivity.
Qed.

Lemma counts_ignore_order_witness :
  let a := castOf {| authorId := 7; parentAuthorId := None; text := nuts 3 |} in
  let b := castOf {| authorId := 8; parentAuthorId := Some 7; text := nuts 2 |} in
  let c := VNull in
  countNuts 7 (feedBody [c; a; b]) = countNuts 7 (feedBody [a; b; c])
  /\ fetchNutsData 30 7 (feedBody [c; a; b]) 6000 (initialState 0)
     = fetchNutsData 30 7 (feedBody [a; b; c]) 6000 (initialState 0).
Proof.
  intros a b c.
  apply (counts_ignore_order 30 7 [a; b; c] [c; a; b] 6000 (initialState 0)).
  apply Permutation_sym. apply (Permutation_cons_append [a; b] c).
Defined.

(** X8: the counts of two batches put together are the sums of their
    counts; the whole throws when either part does. *)
Theorem counts_add_over_batches (fid : Z) (l1 l2 : list value) :
  countNuts fid (feedBody (l1 ++ l2))
  = (a <- countNuts fid (feedBody l1) ;;
     b <- countNuts fid (feedBody l2) ;;
     Normal (fst a + fst b, snd a + snd b)).
Proof.
  rewrite !countNuts_feedBody, forEach_app.
  destruct (forEach l1 (countCast fid) (0, 0)) as [[s1 r1]|e]; cbn [bind];
    [|reflexivity].
  rewrite forEach_shift. reflexivity.
Qed.

(** X9: one cast by the subject, or in reply to the subject, whose
    [text] is not a string makes the whole cycle fail, wherever it is in
    the batch and whatever the other casts hold. *)
Theorem malformed_subject_cast_fails_cycle
        (DAILY_ALLOWANCE fid : Z) (pre post : list value) (cast : value)
        (clock : Z) (st : component) :
  (author <- get cast "author" ;; get author "fid") = Normal (VNum fid)
  \/ (pa <- get cast "parent_author" ;; get_opt pa "fid") = Normal (VNum fid) ->
  (forall s, get cast "text" <> Normal (VStr s)) ->
  countNuts fid (feedBody (pre ++ cast :: post)) = Throw TypeError
  /\ nutsData (fetchNutsData DAILY_ALLOWANCE fid
                 (feedBody (pre ++ cast :: post)) clock st)
     = nutsData st.
Proof.
  intros Hsubject Htext.
  assert (Hbad : (text <- get cast "text" ;; match_nut text) = Throw TypeError).
  { destruct (text_count_cases cast) as [H|(m & H & _)]; [exact H|exfalso].
    destruct (get cast "text") as [[]|] eqn:E; cbn in H; try discriminate.
    eapply Htext. reflexivity. }
  assert (Hcast : countCast fid cast (0, 0) = Throw TypeError).
  { destruct (countCast_cases fid cast) as [H|(ds & dr & H & _)];
      [exact H|exfalso].
    unfold countCast in H. rewrite Hbad in H.
    destruct (get cast "author") as [author|]; cbn [bind] in *;
      [|discriminate].
    destruct (get author "fid") as [authorFid|] eqn:Haf; cbn [bind] in *;
      [|discriminate].
    destruct (strict_eq_num authorFid fid) eqn:Hs; cbn [bind] in H;
      [discriminate|].
    destruct (get cast "parent_author") as [pa|]; cbn [bind] in *;
      [|discriminate].
    destruct (get_opt pa "fid") as [parentFid|] eqn:Hpf; cbn [bind] in *;
      [|discriminate].
    destruct (strict_eq_num parentFid fid) eqn:Hp; cbn [bind] in H;
      [discriminate|].
    destruct Hsubject as [Hsub|Hsub]; injection Hsub as ->;
      cbn in Hs, Hp; rewrite Z.eqb_refl in *; discriminate. }
  assert (Hall : countNuts fid (feedBody (pre ++ cast :: post))
                 = Throw TypeError).
  { rewrite countNuts_feedBody, forEach_app.
    destruct (forEach_cases fid pre) as [->|(s & r & -> & _)]; cbn [bind];
      [reflexivity|].
    cbn [forEach]. rewrite countCast_shift, Hcast. reflexivity. }
  split; [exact Hall|].
  rewrite (fetchNutsData_failure _ _ _ _ _ _ Hall). reflexivity.
Qed.

Lemma malformed_subject_cast_fails_cycle_witness :
  let good := castOf {| authorId := 7; parentAuthorId := None;
                        text := nuts 3 |} in
  let bad := VObj [("author", VObj [("fid", VNum 7)]); ("text", VNull)] in
  countNuts 7 (feedBody ([good] ++ bad :: [good])) = Throw TypeError
  /\ nutsData (fetchNutsData 30 7 (feedBody ([good] ++ bad :: [good]))
                 6000 (initialState 0))
     = nutsData (initialState 0).
Proof.
  intros good bad.
  apply (malformed_subject_cast_fails_cycle 30 7 [good] [good] bad 6000
           (initialState 0)).
  - left. reflexivity.
  - intros s. cbn. discriminate.
Defined.

(** ** Sequences of refresh cycles *)

Lemma refresh_app (DAILY_ALLOWANCE fid : Z) (st : component)
      (l1 l2 : list (network * Z)) :
  refresh DAILY_ALLOWANCE fid st (l1 ++ l2)
  = refresh DAILY_ALLOWANCE fid (refresh DAILY_ALLOWANCE fid st l1) l2.
Proof. unfold refresh. apply fold_left_app. Qed.

Lemma refresh_cons (DAILY_ALLOWANCE fid : Z) (st : component)
      (c : network * Z) (cycles : list (network * Z)) :
  refresh DAILY_ALLOWANCE fid st (c :: cycles)
  = refresh DAILY_ALLOWANCE fid
      (fetchNutsData DAILY_ALLOWANCE fid (fst c) (snd c) st) cycles.
Proof. reflexivity. Qed.

Lemma countNuts_nonneg (fid : Z) (net : network) (s r : Z) :
  countNuts fid net = Normal (s, r) -> 0 <= s /\ 0 <= r.
Proof.
  unfold countNuts.
  destruct (await_json net) as [data|]; cbn [bind]; [|discriminate].
  destruct (get data "casts") as [casts|]; cbn [bind]; [|discriminate].
  destruct casts; cbn [call_forEach]; try discriminate.
  destruct (forEach_cases fid items) as [->|(s' & r' & -> & Hs & Hr)];
    [discriminate|].
  intros H. injection H as <- <-. split; assumption.
Qed.

(** X10: whatever the responses hold, the three counters of a component
    are never negative, at creation or after any sequence of cycles. *)
Theorem counters_never_negative
        (DAILY_ALLOWANCE fid created : Z) (cycles : list (network * Z)) :
  let st := refresh DAILY_ALLOWANCE fid (initialState created) cycles in
  0 <= sent (nutsData st)
  /\ 0 <= received (nutsData st)
  /\ 0 <= failedAttempts (nutsData st).
Proof.
  cbv zeta.
  assert (Hinv : forall st,
             0 <= sent (nutsData st) /\ 0 <= received (nutsData st)
             /\ 0 <= failedAttempts (nutsData st) ->
             0 <= sent (nutsData (refresh DAILY_ALLOWANCE fid st cycles))
             /\ 0 <= received (nutsData (refresh DAILY_ALLOWANCE fid st cycles))
             /\ 0 <= failedAttempts
                       (nutsData (refresh DAILY_ALLOWANCE fid st cycles))).
  { induction cycles as [|[net clock] cycles IH]; intros st Hst;
      [exact Hst|].
    rewrite refresh_cons. apply IH. cbn [fst snd].
    destruct (countNuts fid net) as [[s r]|e] eqn:Hc.
    - rewrite (fetchNutsData_success _ _ _ _ _ _ _ Hc).
      cbn [nutsData sent received failedAttempts].
      destruct (countNuts_nonneg fid net s r Hc) as [Hs Hr].
      destruct (s >? DAILY_ALLOWANCE); lia.
    - rewrite (fetchNutsData_failure _ _ _ _ _ _ Hc). exact Hst. }
  apply Hinv. cbn. lia.
Qed.

(** X11: [failedAttempts] grows by the number of cycles that completed
    above the allowance: one for every such cycle, not one for every
    day or every cast; so by at most the number of cycles. *)
Theorem failedAttempts_counts_over_cycles
        (DAILY_ALLOWANCE fid : Z) (st : component)
        (cycles : list (network * Z)) :
  failedAttempts (nutsData (refresh DAILY_ALLOWANCE fid st cycles))
  = failedAttempts (nutsData st)
    + Z.of_nat (List.length
                  (filter (fun c => cycleOver DAILY_ALLOWANCE fid (fst c))
                          cycles))
  /\ failedAttempts (nutsData (refresh DAILY_ALLOWANCE fid st cycles))
     <= failedAttempts (nutsData st) + Z.of_nat (List.length cycles).
Proof.
  assert (Heq : forall st,
    failedAttempts (nutsData (refresh DAILY_ALLOWANCE fid st cycles))
    = failedAttempts (nutsData st)
      + Z.of_nat (List.length
                    (filter (fun c => cycleOver DAILY_ALLOWANCE fid (fst c))
                            cycles))).
  { induction cycles as [|[net clock] cycles IH]; intros st0.
    - cbn. lia.
    - rewrite refresh_cons, IH, failedAttempts_step. cbn [fst snd filter].
      unfold cycleOver.
      destruct (countNuts fid net) as [[s r]|e];
        [destruct (s >? DAILY_ALLOWANCE)|]; cbn [List.length]; lia. }
  split; [apply Heq|]. rewrite Heq.
  pose proof (filter_length_le
                (fun c => cycleOver DAILY_ALLOWANCE fid (fst c)) cycles).
  lia.
Qed.

(** A user whose feed keeps showing 35 sent against an allowance of 30
    gets one more failed attempt at every refresh. *)
Example failedAttempts_every_cycle :
  let over := feedOf [ {| authorId := 7; parentAuthorId := None;
                          text := nuts 35 |} ] in
  failedAttempts
    (nutsData (refresh 30 7 (initialState 0)
                 [(over, 1000); (over, 2000); (over, 3000)])) = 3.
Proof. vm_compute. reflexivity. Qed.

Lemma refresh_all_failed (DAILY_ALLOWANCE fid : Z)
      (cycles : list (network * Z)) :
  Forall (fun c => cycleFails fid (fst c) = true) cycles ->
  forall st,
    nutsData (refresh DAILY_ALLOWANCE fid st cycles) = nutsData st
    /\ (cycles <> [] ->
        error (refresh DAILY_ALLOWANCE fid st cycles)
        = "Failed to fetch nuts data"
        /\ isLoading (refresh DAILY_ALLOWANCE fid st cycles) = false).
Proof.
  induction 1 as [|[net clock] cycles Hc _ IH]; intros st.
  - split; [reflexivity|]. intros H; contradiction H; reflexivity.
  - rewrite refresh_cons. cbn [fst snd] in *.
    unfold cycleFails in Hc.
    destruct (countNuts fid net) as [|e] eqn:Hn; [discriminate|].
    rewrite (fetchNutsData_failure DAILY_ALLOWANCE _ _ clock st _ Hn).
    destruct (IH {| nutsData := nutsData st; isLoading := false;
                    error := "Failed to fetch nuts data" |}) as [Hd Herr].
    split; [exact Hd|]. intros _.
    destruct cycles as [|c cycles'].
    + split; reflexivity.
    + apply Herr. discriminate.
Qed.

(** X12: any number of failed cycles in a row leaves [nutsData] as it
    was before the first of them, with the error message set and the
    loading flag cleared. *)
Theorem failures_in_a_row_keep_data
        (DAILY_ALLOWANCE fid : Z) (st : component)
        (c : network * Z) (cycles : list (network * Z)) :
  Forall (fun c => cycleFails fid (fst c) = true) (c :: cycles) ->
  refresh DAILY_ALLOWANCE fid st (c :: cycles)
  = {| nutsData := nutsData st; isLoading := false;
       error := "Failed to fetch nuts data" |}.
Proof.
  intros H.
  destruct (refresh_all_failed DAILY_ALLOWANCE fid (c :: cycles) H st)
    as [Hd Herr].
  destruct (Herr ltac:(discriminate)) as [He Hl].
  destruct (refresh DAILY_ALLOWANCE fid st (c :: cycles)) as [d l e].
  cbn in *. subst. reflexivity.
Qed.

Lemma failures_in_a_row_keep_data_witness :
  let st := {| nutsData := {| sent := 12; received := 4; failedAttempts := 2;
                              lastUpdated := 5000 |};
               isLoading := false; error := EmptyString |} in
  refresh 30 7 st
    [ (Rejected, 6000); (Response (Throw SyntaxError), 7000);
      (Response (Normal (VObj [("message", VStr [])])), 8000) ]
  = {| nutsData := nutsData st; isLoading := false;
       error := "Failed to fetch nuts data" |}.
Proof.
  intros st.
  apply (failures_in_a_row_keep_data 30 7 st (Rejected, 6000)
           [ (Response (Throw SyntaxError), 7000);
             (Response (Normal (VObj [("message", VStr [])])), 8000) ]).
  repeat constructor.
Defined.

(** X13: after any history, the component holds the counts and the
    time of the last cycle that completed, however many failed cycles
    came after it; the error message is shown exactly when the last
    cycle of all failed. *)
Theorem state_is_last_completed_cycle
        (DAILY_ALLOWANCE fid : Z) (st : component)
        (before after : list (network * Z)) (net : network)
        (clock s r : Z) :
  countNuts fid net = Normal (s, r) ->
  Forall (fun c => cycleFails fid (fst c) = true) after ->
  let st' := refresh DAILY_ALLOWANCE fid st
               (before ++ (net, clock) :: after) in
  sent (nutsData st') = s
  /\ received (nutsData st') = r
  /\ lastUpdated (nutsData st') = clock
  /\ isLoading st' = false
  /\ error st' = match after with
                 | [] => EmptyString
                 | _ :: _ => "Failed to fetch nuts data"
                 end.
Proof.
  intros Hc Hafter. cbv zeta.
  rewrite refresh_app, refresh_cons. cbn [fst snd].
  rewrite (fetchNutsData_success _ _ _ _ _ _ _ Hc).
  destruct (refresh_all_failed DAILY_ALLOWANCE fid after Hafter
              {| nutsData :=
                   {| sent := s; received := r;
                      failedAttempts :=
                        failedAttempts
                          (nutsData (refresh DAILY_ALLOWANCE fid st before))
                        + (if s >? DAILY_ALLOWANCE then 1 else 0);
                      lastUpdated := clock |};
                 isLoading := false; error := EmptyString |})
    as [Hd Herr].
  rewrite Hd. cbn [nutsData sent received lastUpdated].
  repeat (split; [reflexivity|]).
  destruct after as [|c after'].
  - split; reflexivity.
  - destruct (Herr ltac:(discriminate)) as [He Hl]. split; assumption.
Qed.

Lemma state_is_last_completed_cycle_witness :
  let net := feedOf [ {| authorId := 7; parentAuthorId := None;
                         text := nuts 4 |} ] in
  let st' := refresh 30 7 (initialState 0)
               ([(Rejected, 1000)] ++ (net, 2000) :: [(Rejected, 3000)]) in
  sent (nutsData st') = 4
  /\ received (nutsData st') = 0
  /\ lastUpdated (nutsData st') = 2000
  /\ isLoading st' = false
  /\ error st' = "Failed to fetch nuts data".
Proof.
  intros net.
  apply (state_is_last_completed_cycle 30 7 (initialState 0)
           [(Rejected, 1000)] [(Rejected, 3000)] net 2000 4 0).
  - reflexivity.
  - repeat constructor.
Defined.

(** X14: what is shown after a cycle is fixed by that cycle alone: the
    error message when it failed, hiding the counts of earlier cycles,
    and the card with the fresh counts when it completed; never the
    loading placeholder. *)
Theorem render_after_cycle
        (DAILY_ALLOWANCE RESET_HOUR_UTC fid : Z) (net : network)
        (clock now : Z) (st : component) :
  render DAILY_ALLOWANCE RESET_HOUR_UTC
         (fetchNutsData DAILY_ALLOWANCE fid net clock st) now
  = match countNuts fid net with
    | Throw _ => ErrorView "Failed to fetch nuts data"
    | Normal (s, r) => CardView r (Z.max 0 (DAILY_ALLOWANCE - s)) s
    end.
Proof.
  unfold fetchNutsData.
  destruct (countNuts fid net) as [[s r]|e]; [|reflexivity].
  unfold render. cbn.
  unfold shownRemaining.
  destruct (Z.gtb_spec (DAILY_ALLOWANCE - s) 0); f_equal; lia.
Qed.

(** ** The [Frame] component *)

(** X15: whatever [sdk.actions.addFrame()] rejects with, [addFrame]
    leaves the message [Error: ...] built from the error's string form;
    the [Not added: ...] message written for a user rejection or an
    invalid manifest is overwritten and never remains; nothing else in
    the state changes, and a call that resolves changes nothing. *)
Theorem addFrame_always_ends_with_Error
        (error : addFrameError) (st : frame) :
  addFrame (Some error) st
  = {| isSDKLoaded := isSDKLoaded st; context := context st;
       added := added st;
       addFrameResult := "Error: " ++ shownAs error |}
  /\ (forall message,
        addFrameResult (addFrame (Some error) st) <> "Not added: " ++ message)
  /\ addFrame None st = st.
Proof.
  assert (H : addFrame (Some error) st
              = {| isSDKLoaded := isSDKLoaded st; context := context st;
                   added := added st;
                   addFrameResult := "Error: " ++ shownAs error |})
    by (destruct error; reflexivity).
  split; [exact H|]. split; [|reflexivity].
  intros message. rewrite H. cbn. discriminate.
Qed.

Lemma nullish_not_truthy (v : value) : nullish v = true -> truthy v = false.
Proof. destruct v; cbn; congruence. Qed.

(** X16: [load] signals ready exactly when the awaited context is
    truthy and its [client.added] can be read; it prompts to add the
    frame exactly when, besides, that value is falsy; and when ready is
    not signalled, no listener is registered and [added] keeps its
    value. *)
Theorem load_signals_ready (awaited : completion value) (st : frame) :
  let st' := fst (fst (load awaited st)) in
  let calls := snd (fst (load awaited st)) in
  (In Ready calls
   <-> exists context a,
         awaited = Normal context /\ truthy context = true
         /\ (client <- get context "client" ;; get client "added") = Normal a)
  /\ (In PromptAddFrame calls
      <-> exists context a,
            awaited = Normal context /\ truthy context = true
            /\ (client <- get context "client" ;; get client "added")
               = Normal a
            /\ truthy a = false)
  /\ (~ In Ready calls -> calls = [] /\ added st' = added st).
Proof.
  cbv zeta. unfold load.
  destruct awaited as [context|e].
  2:{ cbn [fst snd In]. split; [|split].
      - split; [contradiction|intros (c & a & H & _); discriminate].
      - split; [contradiction|intros (c & a & H & _); discriminate].
      - intros _. split; reflexivity. }
  destruct (truthy context) eqn:Ht; cbn [negb].
  2:{ cbn [fst snd In]. split; [|split].
      - split; [contradiction|].
        intros (c & a & H & Hc & _). injection H as <-. congruence.
      - split; [contradiction|].
        intros (c & a & H & Hc & _). injection H as <-. congruence.
      - intros _. split; reflexivity. }
  destruct (client <- get context "client" ;; get client "added")
    as [a|e] eqn:Ha.
  2:{ cbn [fst snd In]. split; [|split].
      - split; [contradiction|].
        intros (c & a & H & _ & Hc). injection H as <-. congruence.
      - split; [contradiction|].
        intros (c & a & H & _ & Hc & _). injection H as <-. congruence.
      - intros _. split; reflexivity. }
  cbn [fst snd].
  split; [|split].
  - split; [intros _; eauto|intros _].
    apply in_or_app. right. cbn. tauto.
  - split.
    + intros Hin. exists context, a. repeat split; try assumption.
      destruct (truthy a); [|reflexivity].
      cbn in Hin.
      repeat (destruct Hin as [Hin|Hin]; [discriminate|]). contradiction.
    + intros (c & a' & H & _ & Hc & Hf). injection H as <-.
      rewrite Ha in Hc. injection Hc as <-. rewrite Hf. cbn. auto.
  - intros Hno. exfalso. apply Hno. apply in_or_app. right. cbn. tauto.
Qed.

Lemma inset_no_context (context : value) (side : string) :
  nullish context = true -> inset context side = Normal (VNum 0).
Proof. intros H. unfold inset. rewrite H. reflexivity. Qed.



Lemma inset_cases (context : value) (side : string) :
  (nullish context = false
   /\ (exists client, get context "client" = Normal client
                      /\ nullish client = true)
   /\ inset context side = Throw TypeError)
  \/ (~ (nullish context = false
         /\ exists client, get context "client" = Normal client
                           /\ nullish client = true)
      /\ exists v, inset context side = Normal v /\ nullish v = false).
Proof.
  unfold inset.
  destruct (nullish context) eqn:Hn; cbn [bind].
  { right. split; [intros [H _]; discriminate|].
    eexists. split; reflexivity. }
  assert (Hc : exists client, get context "client" = Normal client)
    by (destruct context; cbn in *; try discriminate; eauto).
  destruct Hc as (client & Hc). rewrite Hc. cbn [bind].
  destruct (nullish client) eqn:Hcl.
  - left. split; [reflexivity|]. split; [eauto|].
    destruct client; cbn in *; try discriminate; reflexivity.
  - right. split.
    + intros (_ & c & Hc' & Hn'). rewrite ?Hc in Hc'. injection Hc' as <-.
      congruence.
    + assert (Hi : exists insets, get client "safeAreaInsets" = Normal insets)
        by (destruct client; cbn in *; try discriminate; eauto).
      destruct Hi as (insets & ->). cbn [bind].
      destruct (get_opt_never_throws insets side) as (v & ->). cbn [bind].
      destruct (nullish v) eqn:Hv; eexists; split; try reflexivity.
      exact Hv.
Qed.

(** X18: rendering [Frame] throws exactly when the SDK is loaded and the
    context is there but has no [client]; what it throws is a
    [TypeError]. *)
Theorem renderFrame_throws (st : frame) :
  (forall e, renderFrame st = Throw e -> e = TypeError)
  /\ (renderFrame st = Throw TypeError
      <-> isSDKLoaded st = true
          /\ nullish (context st) = false
          /\ exists client, get (context st) "client" = Normal client
                            /\ nullish client = true).
Proof.
  unfold renderFrame.
  destruct (isSDKLoaded st); cbn [negb].
  2:{ split; [intros e H; discriminate|].
      split; [discriminate|intros [H _]; discriminate]. }
  destruct (inset_cases (context st) "top") as [(Hn & Hc & Ht)|(Hno & vt & Ht & _)].
  { rewrite Ht. cbn [bind]. split; [intros e H; congruence|].
    split; [intros _; auto|reflexivity]. }
  destruct (inset_cases (context st) "bottom")
    as [(Hn & Hc & _)|(_ & vb & Hb & _)]; [exfalso; apply Hno; auto|].
  destruct (inset_cases (context st) "left")
    as [(Hn & Hc & _)|(_ & vl & Hl & _)]; [exfalso; apply Hno; auto|].
  destruct (inset_cases (context st) "right")
    as [(Hn & Hc & _)|(_ & vr & Hr & _)]; [exfalso; apply Hno; auto|].
  rewrite Ht, Hb, Hl, Hr. cbn [bind].
  assert (Hchild : exists child,
    (guard <- (if nullish (context st) then Normal VUndefined
               else frameData <- get (context st) "frameData" ;;
                    get_opt frameData "fid") ;;
     child <- (if truthy guard
               then frameData <- get (context st) "frameData" ;;
                    fid <- get frameData "fid" ;;
                    user <- get frameData "user" ;;
                    Normal (TrackerCard fid user)
               else Normal (NoCard guard)) ;;
     Normal (FrameMain vt vb vl vr child))
    = Normal (FrameMain vt vb vl vr child)).
  { destruct (nullish (context st)) eqn:Hn; cbn [bind].
    - cbn. eauto.
    - assert (Hfd : exists fd, get (context st) "frameData" = Normal fd)
        by (destruct (context st); cbn in *; try discriminate; eauto).
      destruct Hfd as (fd & Hfd). rewrite Hfd. cbn [bind].
      destruct fd; cbn [get_opt get bind truthy]; eauto.
      destruct (truthy (lookup "fid" props)); cbn [bind]; eauto. }
  destruct Hchild as (child & ->).
  split; [intros e H; discriminate|].
  split; [discriminate|]. intros (_ & Hn & Hc). exfalso. apply Hno. auto.
Qed.

(** X19: the tracker card is mounted only when the SDK is loaded and
    [context.frameData.fid] is truthy, and it is given that value as
    [fid] and [context.frameData.user] as [profile]. *)
Theorem tracker_card_mounted
        (st : frame) (pt pb pl pr fid profile : value) :
  renderFrame st = Normal (FrameMain pt pb pl pr (TrackerCard fid profile)) ->
  isSDKLoaded st = true
  /\ truthy fid = true
  /\ exists frameData,
       get (context st) "frameData" = Normal frameData
       /\ get frameData "fid" = Normal fid
       /\ get frameData "user" = Normal profile.
Proof.
  unfold renderFrame.
  destruct (isSDKLoaded st); cbn [negb]; [|discriminate].
  destruct (inset (context st) "top"); cbn [bind]; [|discriminate].
  destruct (inset (context st) "bottom"); cbn [bind]; [|discriminate].
  destruct (inset (context st) "left"); cbn [bind]; [|discriminate].
  destruct (inset (context st) "right"); cbn [bind]; [|discriminate].
  destruct (nullish (context st)) eqn:Hn; cbn [bind truthy];
    [discriminate|].
  destruct (get (context st) "frameData") as [fd|] eqn:Hfd; cbn [bind];
    [|discriminate].
  destruct (get_opt fd "fid") as [guard|] eqn:Hg; cbn [bind]; [|discriminate].
  destruct (truthy guard) eqn:Htg; cbn [bind]; [|discriminate].
  assert (Hfid : get fd "fid" = Normal guard).
  { destruct fd; cbn in Hg |- *; try exact Hg;
      injection Hg as <-; discriminate. }
  rewrite Hfid. cbn [bind].
  destruct (get fd "user") as [user|] eqn:Hu; cbn [bind]; [|discriminate].
  intros H. injection H as <- <- <- <- <- <-.
  repeat split; try assumption. exists fd. repeat split; assumption.
Qed.

Lemma tracker_card_mounted_witness :
  let st := {| isSDKLoaded := true;
               context :=
                 VObj [ ("client", VObj [("added", VBool true)]);
                        ("frameData",
                         VObj [ ("fid", VNum 7);
                                ("user", VObj [("username", VStr [110])]) ]) ];
               added := VBool true; addFrameResult := EmptyString |} in
  isSDKLoaded st = true
  /\ truthy (VNum 7) = true
  /\ exists frameData,
       get (context st) "frameData" = Normal frameData
       /\ get frameData "fid" = Normal (VNum 7)
       /\ get frameData "user" = Normal (VObj [("username", VStr [110])]).
Proof.
  intros st.
  apply (tracker_card_mounted st (VNum 0) (VNum 0) (VNum 0) (VNum 0)
           (VNum 7) (VObj [("username", VStr [110])])).
  reflexivity.
Defined.
